(** * Command: keyboard-to-click synthesis
    (packages/ariakit-react-core/src/command/command.tsx)

    A shallow embedding of the [useCommand] hook: the native-click
    classifier, the keydown and keyup handlers with the state they read and
    write, and the props object the hook returns. *)

From stdpp Require Import base strings gmap list.

Local Open Scope string_scope.
Local Open Scope list_scope.
Local Open Scope nat_scope.

(** ** Data model *)

(** A DOM element as the handlers see it: its identity, its [tagName] and
    its [isContentEditable] property. *)
Record Element := mkElement {
  node : nat;
  tagName : string;
  isContentEditable : bool;
}.

(** JavaScript values carried by an event object. [VObj] is a reference to
    an opaque object (the window behind [view]). *)
Inductive Value :=
  | VUndefined
  | VBool (b : bool)
  | VStr (s : string)
  | VElem (e : Element)
  | VObj (ref : nat).

(** The React keyboard event, with the fields the hook and its synthesized
    click read. [defaultPrevented] is mutable and lives in the [World]. *)
Record KeyboardEvent := mkKeyboardEvent {
  isTrusted : bool;
  key : string;
  shiftKey : bool;
  ctrlKey : bool;
  altKey : bool;
  metaKey : bool;
  view : Value;
  target : Element;
  currentTarget : Element;
}.

(** The init object handed to [fireClickEvent]: a plain JS object. *)
Abbreviation EventInit := (gmap string Value).

(** [click = () => fireClickEvent(element, eventInit)]: the only kind of
    callback the hook ever queues. *)
Inductive Task :=
  | FireClick (element : Element) (eventInit : EventInit).

(** Everything a handler invocation can read or write.
    - [defaultPrevented]: the flag of the event being handled;
    - [activeRef], [active], [isNativeButton]: the [useRef] and [useState]
      cells of each hook instance, indexed by instance;
    - [microtasks]: the callbacks passed to [queueMicrotask];
    - [beforeEvent]: the callbacks passed to [queueBeforeEvent], with the
      element and event type they wait for;
    - [clicks]: the click events dispatched so far by [fireClickEvent]. *)
Record World := mkWorld {
  defaultPrevented : bool;
  activeRef : gmap nat bool;
  active : gmap nat bool;
  isNativeButton : gmap nat bool;
  microtasks : list Task;
  beforeEvent : list (Element * string * Task);
  clicks : list (Element * EventInit);
}.

Definition Handler : Type := KeyboardEvent → World → World.

(** [useRef(false)] and [useState(false)]: a cell never written reads
    [false]. *)
Definition readCell (cells : gmap nat bool) (i : nat) : bool :=
  default false (cells !! i).

(** ** Primitive effects *)

(** [event.preventDefault()] *)
Definition preventDefault (w : World) : World :=
  mkWorld true (activeRef w) (active w) (isNativeButton w)
          (microtasks w) (beforeEvent w) (clicks w).

(** [activeRef.current = b] of instance [i] *)
Definition setActiveRef (i : nat) (b : bool) (w : World) : World :=
  mkWorld (defaultPrevented w) (<[i:=b]> (activeRef w)) (active w)
          (isNativeButton w) (microtasks w) (beforeEvent w) (clicks w).

(** [setActive(b)] of instance [i] *)
Definition setActive (i : nat) (b : bool) (w : World) : World :=
  mkWorld (defaultPrevented w) (activeRef w) (<[i:=b]> (active w))
          (isNativeButton w) (microtasks w) (beforeEvent w) (clicks w).

(** [setIsNativeButton(b)] of instance [i] *)
Definition setIsNativeButton (i : nat) (b : bool) (w : World) : World :=
  mkWorld (defaultPrevented w) (activeRef w) (active w)
          (<[i:=b]> (isNativeButton w)) (microtasks w) (beforeEvent w)
          (clicks w).

(** [queueMicrotask(callback)] *)
Definition queueMicrotask (callback : Task) (w : World) : World :=
  mkWorld (defaultPrevented w) (activeRef w) (active w) (isNativeButton w)
          (microtasks w ++ [callback]) (beforeEvent w) (clicks w).

(** Modelled from the spec: [queueBeforeEvent] of
    [@ariakit/core/utils/events] is missing; by section 5 it registers a
    one-shot callback that runs immediately before the next occurrence of
    the named event on the element. The registration is what is recorded
    here. *)
Definition queueBeforeEvent (element : Element) (type : string)
    (callback : Task) (w : World) : World :=
  mkWorld (defaultPrevented w) (activeRef w) (active w) (isNativeButton w)
          (microtasks w) (beforeEvent w ++ [(element, type, callback)])
          (clicks w).

(** Modelled from the spec: [fireClickEvent] of
    [@ariakit/core/utils/events] is missing; by section 4.4 it constructs
    and dispatches one click on the element from the given init. *)
Definition fireClickEvent (element : Element) (eventInit : EventInit)
    (w : World) : World :=
  mkWorld (defaultPrevented w) (activeRef w) (active w) (isNativeButton w)
          (microtasks w) (beforeEvent w) (clicks w ++ [(element, eventInit)]).

Definition runTask (t : Task) (w : World) : World :=
  match t with
  | FireClick element eventInit => fireClickEvent element eventInit w
  end.

(** Modelled from the spec: the microtask checkpoint of the host event
    loop (section 5): once the synchronous handler has returned, the queued
    callbacks run in order and the queue is empty. *)
Definition flushMicrotasks (w : World) : World :=
  fold_left (λ acc t, runTask t acc) (microtasks w)
    (mkWorld (defaultPrevented w) (activeRef w) (active w) (isNativeButton w)
             [] (beforeEvent w) (clicks w)).

(** The own enumerable properties of the event object, as an object spread
    or a rest pattern copies them; [dp] is the current value of
    [event.defaultPrevented]. *)
Definition ownProps (event : KeyboardEvent) (dp : bool) : EventInit :=
  list_to_map
    [ ("isTrusted", VBool (isTrusted event));
      ("key", VStr (key event));
      ("shiftKey", VBool (shiftKey event));
      ("ctrlKey", VBool (ctrlKey event));
      ("altKey", VBool (altKey event));
      ("metaKey", VBool (metaKey event));
      ("defaultPrevented", VBool dp);
      ("view", view event);
      ("target", VElem (target event));
      ("currentTarget", VElem (currentTarget event)) ].

(** [const { view, ...eventInit } = event;] *)
Definition restWithoutView (event : KeyboardEvent) (w : World) : EventInit :=
  delete "view" (ownProps event (defaultPrevented w)).

(** [onKeyDownProp?.(event)] *)
Definition callOptional (h : option Handler) (event : KeyboardEvent)
    (w : World) : World :=
  match h with
  | Some f => f event w
  | None => w
  end.

(** A props object. A property holds a plain value, a keyboard handler, or
    the marker-carrying function object that [useMetadataProps] stores
    ([marks] are the descriptions of the symbols set on it). *)
Inductive PropValue :=
  | PVal (v : Value)
  | PFun (h : Handler)
  | PMeta (marks : gset string).

Abbreviation Props := (gmap string PropValue).

(** [props.onKeyDown] read for the optional call [onKeyDownProp?.(event)]:
    the props type admits a function or [undefined], and only a function
    is called. *)
Definition handlerOf (v : option PropValue) : option Handler :=
  match v with
  | Some (PFun h) => Some h
  | _ => None
  end.

(** A destructuring default [{ flag = true }]: the default applies when the
    property is missing or [undefined]; any other value is used for its
    truthiness. *)
Definition flagOrTrue (v : option PropValue) : bool :=
  match v with
  | None | Some (PVal VUndefined) => true
  | Some (PVal (VBool b)) => b
  | Some (PVal (VStr s)) => negb (String.eqb s "")
  | Some _ => true
  end.

(** Object spread [{ ...base, ...over }]: a key of [over] wins, also when
    its value is [undefined]. *)
Definition spread (base over : Props) : Props := over ∪ base.

(** A property read [props[k]]: a missing key reads [undefined]. *)
Definition getProp (props : Props) (k : string) : PropValue :=
  default (PVal VUndefined) (props !! k).

(** Modelled from the spec: [useEvent] of [../utils/hooks.ts] is missing;
    section 6 speaks of the wrapped handlers as the handlers the hook
    returns, so the wrapper calls the callback it was given. *)
Definition useEvent (callback : Handler) : Handler :=
  λ event w, callback event w.

(** [const symbol = Symbol("command");] *)
Definition symbol : string := "command".

(** The functions the module imports from elsewhere in the library. *)
Class Collaborators := {
  (** [@ariakit/core/utils/dom] *)
  isButton : Element → bool;
  isTextField : Element → bool;
  (** [@ariakit/core/utils/events] *)
  isSelfTarget : KeyboardEvent → bool;
  (** [@ariakit/core/utils/platform] *)
  isFirefox : bool;
  (** [@ariakit/core/utils/misc] *)
  disabledFromProps : Props → bool;
  (** [../utils/hooks.ts]: [useMetadataProps(props, symbol, true)] and
      [useMergeRefs(ref, props.ref)], the hook's own ref named by its
      instance *)
  useMetadataProps : Props → string → bool * Props;
  useMergeRefs : nat → option PropValue → PropValue;
  (** [../focusable/focusable.tsx] *)
  useFocusable : Props → Props;
}.

(** The [return] statement (or the end of the body) at which a handler
    invocation left. *)
Inductive Exit :=
  | AtDefaultPrevented
  | AtDuplicate
  | AtDisabled
  | AtNotSelfTarget
  | AtTextField
  | AtContentEditable
  | AtMetaKey
  | AtPreventOnly
  | AtEnd.

(** What the handlers of one hook instance close over. *)
Record Instance := mkInstance {
  fiber : nat;
  clickOnEnter : bool;
  clickOnSpace : bool;
  isDuplicate : bool;
  disabled : bool;
  onKeyDownProp : option Handler;
  onKeyUpProp : option Handler;
}.

Section Command.

Context {env : Collaborators}.

(** ** [isNativeClick] *)
Definition isNativeClick (event : KeyboardEvent) : bool :=
  if negb (isTrusted event) then false
  else
    let element := currentTarget event in
    if String.eqb (key event) "Enter" then
      isButton element
      || String.eqb (tagName element) "SUMMARY"
      || String.eqb (tagName element) "A"
    else if String.eqb (key event) " " then
      isButton element
      || String.eqb (tagName element) "SUMMARY"
      || String.eqb (tagName element) "INPUT"
      || String.eqb (tagName element) "SELECT"
    else false.

(** ** The keydown handler, with the place it returned from *)
Definition onKeyDownAt (self : Instance) (event : KeyboardEvent)
    (w0 : World) : Exit * World :=
  let w := callOptional (onKeyDownProp self) event w0 in
  let element := currentTarget event in
  if defaultPrevented w then (AtDefaultPrevented, w)
  else if isDuplicate self then (AtDuplicate, w)
  else if disabled self then (AtDisabled, w)
  else if negb (isSelfTarget event) then (AtNotSelfTarget, w)
  else if isTextField element then (AtTextField, w)
  else if isContentEditable element then (AtContentEditable, w)
  else
    let isEnter := clickOnEnter self && String.eqb (key event) "Enter" in
    let isSpace := clickOnSpace self && String.eqb (key event) " " in
    let shouldPreventEnter :=
      String.eqb (key event) "Enter" && negb (clickOnEnter self) in
    let shouldPreventSpace :=
      String.eqb (key event) " " && negb (clickOnSpace self) in
    if shouldPreventEnter || shouldPreventSpace then
      (AtPreventOnly, preventDefault w)
    else if isEnter || isSpace then
      let nativeClick := isNativeClick event in
      if isEnter then
        if negb nativeClick then
          let w := preventDefault w in
          let eventInit := restWithoutView event w in
          let click := FireClick element eventInit in
          if isFirefox then
            (AtEnd, queueBeforeEvent element "keyup" click w)
          else
            (AtEnd, queueMicrotask click w)
        else (AtEnd, w)
      else if isSpace then
        let w := setActiveRef (fiber self) true w in
        if negb nativeClick then
          (AtEnd, setActive (fiber self) true (preventDefault w))
        else (AtEnd, w)
      else (AtEnd, w)
    else (AtEnd, w).

Definition onKeyDown (self : Instance) : Handler :=
  λ event w, (onKeyDownAt self event w).2.

(** ** The keyup handler, with the place it returned from *)
Definition onKeyUpAt (self : Instance) (event : KeyboardEvent)
    (w0 : World) : Exit * World :=
  let w := callOptional (onKeyUpProp self) event w0 in
  if defaultPrevented w then (AtDefaultPrevented, w)
  else if isDuplicate self then (AtDuplicate, w)
  else if disabled self then (AtDisabled, w)
  else if metaKey event then (AtMetaKey, w)
  else
    let isSpace := clickOnSpace self && String.eqb (key event) " " in
    if readCell (activeRef w) (fiber self) && isSpace then
      let w := setActiveRef (fiber self) false w in
      if negb (isNativeClick event) then
        let w := setActive (fiber self) false (preventDefault w) in
        let element := currentTarget event in
        let eventInit := restWithoutView event w in
        (AtEnd, queueMicrotask (FireClick element eventInit) w)
      else (AtEnd, w)
    else (AtEnd, w).

Definition onKeyUp (self : Instance) : Handler :=
  λ event w, (onKeyUpAt self event w).2.

(** ** The hook *)

(** [useEffect(() => { ... }, [])]: after mount, with [ref.current]. *)
Definition mountEffect (i : nat) (current : option Element) (w : World)
    : World :=
  match current with
  | None => w
  | Some element => setIsNativeButton i (isButton element) w
  end.

(** [{ clickOnEnter = true, clickOnSpace = true, ...props }] *)
Definition restProps (props0 : Props) : Props :=
  delete "clickOnSpace" (delete "clickOnEnter" props0).

(** The closure of the handlers created by the render of instance [i]
    with the props [props0]. *)
Definition instanceOf (i : nat) (props0 : Props) : Instance :=
  let props := restProps props0 in
  mkInstance i
    (flagOrTrue (props0 !! "clickOnEnter"))
    (flagOrTrue (props0 !! "clickOnSpace"))
    (useMetadataProps props symbol).1
    (disabledFromProps props)
    (handlerOf (props !! "onKeyDown"))
    (handlerOf (props !! "onKeyUp")).

(** ["data-active": active || undefined] *)
Definition dataActive (i : nat) (w : World) : PropValue :=
  if readCell (active w) i then PVal (VBool true) else PVal VUndefined.

(** [type: isNativeButton ? "button" : undefined] *)
Definition typeAttr (i : nat) (w : World) : PropValue :=
  if readCell (isNativeButton w) i then PVal (VStr "button")
  else PVal VUndefined.

(** The object literal assigned to [props] before [useFocusable]. *)
Definition commandProps (i : nat) (props0 : Props) (w : World) : Props :=
  let props := restProps props0 in
  let self := instanceOf i props0 in
  let metadataProps := (useMetadataProps props symbol).2 in
  let own : Props :=
    <["type" := typeAttr i w]> {["data-active" := dataActive i w]} in
  <["onKeyUp" := PFun (useEvent (onKeyUp self))]>
    (<["onKeyDown" := PFun (useEvent (onKeyDown self))]>
      (<["ref" := useMergeRefs i (props !! "ref")]>
        (spread (spread own metadataProps) props))).

Definition useCommand (i : nat) (props0 : Props) (w : World) : Props :=
  useFocusable (commandProps i props0 w).

(** ** Vocabulary of the statements *)

(** No keydown veto applies, [w] being the state once the user-supplied
    handler has run. *)
Definition keydownPasses (self : Instance) (event : KeyboardEvent)
    (w : World) : Prop :=
  defaultPrevented w = false
  ∧ isDuplicate self = false
  ∧ disabled self = false
  ∧ isSelfTarget event = true
  ∧ isTextField (currentTarget event) = false
  ∧ isContentEditable (currentTarget event) = false.

(** No keyup veto applies, [w] being the state once the user-supplied
    handler has run. *)
Definition keyupPasses (self : Instance) (event : KeyboardEvent)
    (w : World) : Prop :=
  defaultPrevented w = false
  ∧ isDuplicate self = false
  ∧ disabled self = false
  ∧ metaKey event = false.

(** ** Nested registrations *)

(** [Registered p d]: [d] is [p] itself or a duplicate registration
    stacked on it. A duplicate receives the props its predecessor
    returned, so its [onKeyDown] and [onKeyUp] props are the
    predecessor's handlers and it finds the marker already set. *)
Inductive Registered (p : Instance) : Instance → Prop :=
  | registered_primary : Registered p p
  | registered_duplicate d d' :
      Registered p d →
      isDuplicate d' = true →
      onKeyDownProp d' = Some (onKeyDown d) →
      onKeyUpProp d' = Some (onKeyUp d) →
      Registered p d'.

End Command.

(** The event object of the next event: it arrives with its own
    [defaultPrevented] flag. *)
Definition nextEvent (dp : bool) (w : World) : World :=
  mkWorld dp (activeRef w) (active w) (isNativeButton w)
          (microtasks w) (beforeEvent w) (clicks w).

(** The number of click callbacks waiting in either queue. *)
Definition pending (w : World) : nat :=
  length (microtasks w) + length (beforeEvent w).

(** A user handler cannot reach the cells of hook instance [i]: they are
    private to the hook's closure. *)
Definition keepsCells (i : nat) (h : option Handler) : Prop :=
  ∀ event w,
    activeRef (callOptional h event w) !! i = activeRef w !! i
    ∧ active (callOptional h event w) !! i = active w !! i.

(** The instance without its user-supplied handlers. *)
Definition bare (self : Instance) : Instance :=
  mkInstance (fiber self) (clickOnEnter self) (clickOnSpace self)
             (isDuplicate self) (disabled self) None None.

(** ** A concrete environment for examples *)

(** Modelled from the spec: the imported helpers are missing from the
    sources; these stand-ins follow section 4 (a button-like control, a
    text-input-like field, an event that originated from the element
    itself), section 3 (the duplicate-registration marker travels with the
    props) and section 6 (the focus collaborator's props are merged with
    the hook's). *)
Definition exampleCollaborators (firefox : bool) : Collaborators := {|
  isButton e := String.eqb (tagName e) "BUTTON";
  isTextField e := String.eqb (tagName e) "TEXTAREA";
  isSelfTarget event := Nat.eqb (node (target event)) (node (currentTarget event));
  isFirefox := firefox;
  disabledFromProps props :=
    match props !! "disabled" with
    | Some (PVal (VBool true)) => true
    | _ => false
    end;
  useMetadataProps props key :=
    let parent :=
      match props !! "onLoadedMetadataCapture" with
      | Some (PMeta marks) => marks
      | _ => ∅
      end in
    (bool_decide (key ∈ parent),
     {["onLoadedMetadataCapture" := PMeta ({[key]} ∪ parent)]});
  useMergeRefs i _ := PVal (VObj i);
  useFocusable props := props;
|}.

Definition div : Element := mkElement 1 "DIV" false.
Definition editableDiv : Element := mkElement 1 "DIV" true.
Definition button : Element := mkElement 2 "BUTTON" false.

Definition keyOn (trusted : bool) (k : string) (e : Element) : KeyboardEvent :=
  mkKeyboardEvent trusted k false false false false (VObj 0) e e.

Definition shiftEnterOn (e : Element) : KeyboardEvent :=
  mkKeyboardEvent true "Enter" true false false false (VObj 0) e e.

Definition metaSpaceOn (e : Element) : KeyboardEvent :=
  mkKeyboardEvent true " " false false false true (VObj 0) e e.

Definition idle : World := mkWorld false ∅ ∅ ∅ [] [] [].

Definition plain : Instance := mkInstance 0 true true false false None None.

(** A user handler that calls [event.preventDefault()]. *)
Definition preventingHandler : Handler := λ _ w, preventDefault w.

(** A user handler that calls [event.preventDefault()] when shift is
    held. *)
Definition preventOnShift : Handler :=
  λ event w, if shiftKey event then preventDefault w else w.

Definition shiftSpaceOn (e : Element) : KeyboardEvent :=
  mkKeyboardEvent true " " true false false false (VObj 0) e e.

Definition chrome : Collaborators := exampleCollaborators false.
Definition firefox : Collaborators := exampleCollaborators true.

(** An instance whose [onKeyUp] prop is [preventOnShift]. *)
Definition guarded : Instance :=
  mkInstance 0 true true false false None (Some preventOnShift).

(** An instance with [clickOnEnter={false}]. *)
Definition noEnter : Instance :=
  mkInstance 0 false true false false None None.

(** ** Stacks and sequences of events *)

Section Sequences.

Context {env : Collaborators}.

(** [Stacked p d]: [d] is [p] itself or a registration whose [onKeyDown]
    and [onKeyUp] props are the handlers of a registration stacked on [p],
    whether or not it found the marker set. *)
Inductive Stacked (p : Instance) : Instance → Prop :=
  | stacked_base : Stacked p p
  | stacked_on d d' :
      Stacked p d →
      onKeyDownProp d' = Some (onKeyDown d) →
      onKeyUpProp d' = Some (onKeyUp d) →
      Stacked p d'.

(** A held key: the same keydown delivered [n] times to the handler, each
    time as a new event object. *)
Fixpoint repeatKeyDown (self : Instance) (event : KeyboardEvent) (n : nat)
    (w : World) : World :=
  match n with
  | 0 => w
  | S n => repeatKeyDown self event n (onKeyDown self event (nextEvent false w))
  end.

End Sequences.

(** A registration stacked on [plain] that did not find the marker. *)
Definition unmarked : Instance :=
  mkInstance 1 true true false false
    (Some (onKeyDown (env:=exampleCollaborators false) plain))
    (Some (onKeyUp (env:=exampleCollaborators false) plain)).

(** * Properties *)

Section Properties.

Context {env : Collaborators}.

(** ** The synthesized event init *)

Lemma restWithoutView_view event w :
  restWithoutView event w !! "view" = None.
Proof. unfold restWithoutView. apply lookup_delete_eq. Qed.

Lemma restWithoutView_modifiers event w :
  restWithoutView event w !! "shiftKey" = Some (VBool (shiftKey event))
  ∧ restWithoutView event w !! "ctrlKey" = Some (VBool (ctrlKey event))
  ∧ restWithoutView event w !! "altKey" = Some (VBool (altKey event))
  ∧ restWithoutView event w !! "metaKey" = Some (VBool (metaKey event)).
Proof.
  unfold restWithoutView.
  repeat split; (rewrite lookup_delete_ne; [reflexivity | discriminate]).
Qed.

(** ** Queues and the microtask checkpoint *)

Lemma flushMicrotasks_queueMicrotask t w :
  flushMicrotasks (queueMicrotask t w) = runTask t (flushMicrotasks w).
Proof.
  unfold flushMicrotasks, queueMicrotask; simpl.
  by rewrite fold_left_app.
Qed.

Lemma clicks_runTask element eventInit w :
  clicks (runTask (FireClick element eventInit) w)
  = clicks w ++ [(element, eventInit)].
Proof. reflexivity. Qed.

Lemma clicks_fold_runTask ts w :
  clicks (fold_left (λ acc t, runTask t acc) ts w)
  = clicks w ++ map (λ t, match t with FireClick e i => (e, i) end) ts.
Proof.
  revert w. induction ts as [|[e i] ts IH]; intros w; simpl.
  - by rewrite app_nil_r.
  - rewrite IH. simpl. by rewrite <- app_assoc.
Qed.

Lemma clicks_flushMicrotasks w :
  clicks (flushMicrotasks w)
  = clicks w ++ map (λ t, match t with FireClick e i => (e, i) end)
                    (microtasks w).
Proof. unfold flushMicrotasks. by rewrite clicks_fold_runTask. Qed.

(** ** The native-click classifier *)

Lemma eqb_true (s t : string) : String.eqb s t = true ↔ s = t.
Proof. apply String.eqb_eq. Qed.

Lemma eqb_false (s t : string) : String.eqb s t = false ↔ s ≠ t.
Proof. apply String.eqb_neq. Qed.

(** C3. [isNativeClick] answers [true] exactly for a trusted event whose
    key is Enter on a button-like control, a SUMMARY or an A, or whose key
    is Space on a button-like control, a SUMMARY, an INPUT or a SELECT. It
    answers [false] for every untrusted event and for every other key. It
    is a function of the event alone: it takes no state and returns none. *)
Theorem isNativeClick_table (event : KeyboardEvent) :
  let element := currentTarget event in
  (isNativeClick event = true ↔
     isTrusted event = true
     ∧ ((key event = "Enter"
         ∧ (isButton element = true
            ∨ tagName element = "SUMMARY"
            ∨ tagName element = "A"))
        ∨ (key event = " "
           ∧ (isButton element = true
              ∨ tagName element = "SUMMARY"
              ∨ tagName element = "INPUT"
              ∨ tagName element = "SELECT"))))
  ∧ (isTrusted event = false → isNativeClick event = false)
  ∧ (key event ≠ "Enter" → key event ≠ " " → isNativeClick event = false).
Proof.
  intros element. unfold isNativeClick. fold element.
  split; [|split].
  - destruct (isTrusted event); simpl; [|intuition discriminate].
    destruct (String.eqb (key event) "Enter") eqn:HE.
    + apply eqb_true in HE. rewrite !orb_true_iff, !eqb_true.
      rewrite HE. intuition discriminate.
    + apply eqb_false in HE.
      destruct (String.eqb (key event) " ") eqn:HS.
      * apply eqb_true in HS. rewrite !orb_true_iff, !eqb_true.
        rewrite HS. intuition discriminate.
      * apply eqb_false in HS. intuition discriminate.
  - by intros ->.
  - intros HE%eqb_false HS%eqb_false. rewrite HE, HS.
    by destruct (isTrusted event).
Qed.

(** ** The keydown handler *)

(** C4. On every keydown the user-supplied [onKeyDown], if any, runs first,
    whatever the instance (disabled or duplicate included): the handler
    behaves as the handler without a user handler, started in the state
    the user handler left. It then returns with nothing else done at the
    first of these that holds, in this order: the default was already
    prevented, the instance is a duplicate registration, the element is
    disabled, the event is not self-targeted, the element is a text field,
    the element is content-editable. *)
Theorem onKeyDown_veto_chain (self : Instance) (event : KeyboardEvent)
    (w : World) :
  let w1 := callOptional (onKeyDownProp self) event w in
  let element := currentTarget event in
  onKeyDownAt self event w = onKeyDownAt (bare self) event w1
  ∧ (defaultPrevented w1 = true →
     onKeyDownAt self event w = (AtDefaultPrevented, w1))
  ∧ (defaultPrevented w1 = false → isDuplicate self = true →
     onKeyDownAt self event w = (AtDuplicate, w1))
  ∧ (defaultPrevented w1 = false → isDuplicate self = false →
     disabled self = true →
     onKeyDownAt self event w = (AtDisabled, w1))
  ∧ (defaultPrevented w1 = false → isDuplicate self = false →
     disabled self = false → isSelfTarget event = false →
     onKeyDownAt self event w = (AtNotSelfTarget, w1))
  ∧ (defaultPrevented w1 = false → isDuplicate self = false →
     disabled self = false → isSelfTarget event = true →
     isTextField element = true →
     onKeyDownAt self event w = (AtTextField, w1))
  ∧ (defaultPrevented w1 = false → isDuplicate self = false →
     disabled self = false → isSelfTarget event = true →
     isTextField element = false → isContentEditable element = true →
     onKeyDownAt self event w = (AtContentEditable, w1))
  ∧ (keydownPasses self event w1 →
     (onKeyDownAt self event w).1 = AtPreventOnly
     ∨ (onKeyDownAt self event w).1 = AtEnd).
Proof.
  intros w1 element. unfold onKeyDownAt. simpl. fold w1. fold element.
  split; [reflexivity|].
  repeat split.
  - by intros ->.
  - by intros -> ->.
  - by intros -> -> ->.
  - by intros -> -> -> ->.
  - by intros -> -> -> -> ->.
  - by intros -> -> -> -> -> ->.
  - intros (-> & -> & -> & -> & Htf & Hce).
    fold element in Htf, Hce. rewrite Htf, Hce. simpl.
    repeat (match goal with |- context [if ?b then _ else _] =>
              destruct b end; simpl; auto).
Qed.

(** C8. On a keydown that no veto stops, when the key is Enter and
    [clickOnEnter] is false, or the key is Space and [clickOnSpace] is
    false, the handler calls [preventDefault] and returns: nothing is
    queued, no click is dispatched and no cell of the instance changes. *)
Theorem onKeyDown_disabled_key (self : Instance) (event : KeyboardEvent)
    (w : World) :
  let w1 := callOptional (onKeyDownProp self) event w in
  keydownPasses self event w1 →
  (key event = "Enter" ∧ clickOnEnter self = false)
  ∨ (key event = " " ∧ clickOnSpace self = false) →
  let w2 := onKeyDown self event w in
  onKeyDownAt self event w = (AtPreventOnly, preventDefault w1)
  ∧ defaultPrevented w2 = true
  ∧ microtasks w2 = microtasks w1
  ∧ beforeEvent w2 = beforeEvent w1
  ∧ clicks w2 = clicks w1
  ∧ activeRef w2 = activeRef w1
  ∧ active w2 = active w1.
Proof.
  intros w1 (Hdp & Hdup & Hdis & Hself & Htf & Hce) Hkey.
  assert (onKeyDownAt self event w = (AtPreventOnly, preventDefault w1))
    as Hrun.
  { unfold onKeyDownAt. fold w1.
    rewrite Hdp, Hdup, Hdis, Hself, Htf, Hce. simpl.
    destruct Hkey as [[-> ->]|[-> ->]]; simpl; done. }
  simpl. unfold onKeyDown. rewrite Hrun. done.
Qed.

Lemma onKeyDown_enter_run (self : Instance) (event : KeyboardEvent)
    (w : World) :
  let w1 := callOptional (onKeyDownProp self) event w in
  let element := currentTarget event in
  let click :=
    FireClick element (restWithoutView event (preventDefault w1)) in
  keydownPasses self event w1 →
  key event = "Enter" →
  clickOnEnter self = true →
  isNativeClick event = false →
  onKeyDown self event w
  = if isFirefox
    then queueBeforeEvent element "keyup" click (preventDefault w1)
    else queueMicrotask click (preventDefault w1).
Proof.
  intros w1 element click (Hdp & Hdup & Hdis & Hself & Htf & Hce) Hkey Hon Hnat.
  unfold onKeyDown, onKeyDownAt. fold w1.
  rewrite Hdp, Hdup, Hdis, Hself, Htf, Hce, Hkey, Hon, Hnat. simpl.
  by destruct isFirefox.
Qed.

(** C1. On an Enter keydown that no veto stops, with [clickOnEnter] true
    and an element that does not click natively for this event, the
    handler calls [preventDefault] and schedules exactly one synthesized
    click without dispatching it: on Firefox through [queueBeforeEvent]
    for the next keyup on the element, elsewhere through [queueMicrotask],
    so that the click is dispatched at the next microtask checkpoint. *)
Theorem onKeyDown_enter_schedules_click (self : Instance)
    (event : KeyboardEvent) (w : World) :
  let w1 := callOptional (onKeyDownProp self) event w in
  let element := currentTarget event in
  keydownPasses self event w1 →
  key event = "Enter" →
  clickOnEnter self = true →
  isNativeClick event = false →
  let eventInit := restWithoutView event (preventDefault w1) in
  let click := FireClick element eventInit in
  let w2 := onKeyDown self event w in
  defaultPrevented w2 = true
  ∧ clicks w2 = clicks w1
  ∧ activeRef w2 = activeRef w1
  ∧ active w2 = active w1
  ∧ (isFirefox = true →
     w2 = queueBeforeEvent element "keyup" click (preventDefault w1)
     ∧ beforeEvent w2 = beforeEvent w1 ++ [(element, "keyup", click)]
     ∧ microtasks w2 = microtasks w1)
  ∧ (isFirefox = false →
     w2 = queueMicrotask click (preventDefault w1)
     ∧ microtasks w2 = microtasks w1 ++ [click]
     ∧ beforeEvent w2 = beforeEvent w1
     ∧ clicks (flushMicrotasks w2)
       = clicks (flushMicrotasks w1) ++ [(element, eventInit)]).
Proof.
  intros w1 element Hpass Hkey Hon Hnat eventInit click w2.
  unfold w2. rewrite (onKeyDown_enter_run self event w Hpass Hkey Hon Hnat).
  fold w1 element eventInit click. clear w2.
  destruct isFirefox; simpl; (repeat split; try done).
  rewrite flushMicrotasks_queueMicrotask. unfold click.
  rewrite clicks_runTask. by rewrite !clicks_flushMicrotasks.
Qed.

(** ** Space: press and release *)

Lemma readCell_insert (cells : gmap nat bool) (i : nat) (b : bool) :
  readCell (<[i:=b]> cells) i = b.
Proof. unfold readCell. by rewrite lookup_insert_eq. Qed.

Lemma onKeyDown_space_run (self : Instance) (event : KeyboardEvent)
    (w : World) :
  let i := fiber self in
  let w1 := callOptional (onKeyDownProp self) event w in
  keydownPasses self event w1 →
  key event = " " →
  clickOnSpace self = true →
  onKeyDown self event w
  = if isNativeClick event then setActiveRef i true w1
    else setActive i true (preventDefault (setActiveRef i true w1)).
Proof.
  intros i w1 (Hdp & Hdup & Hdis & Hself & Htf & Hce) Hkey Hon.
  unfold onKeyDown, onKeyDownAt. fold w1.
  rewrite Hdp, Hdup, Hdis, Hself, Htf, Hce, Hkey, Hon. simpl.
  rewrite andb_false_r. simpl.
  by destruct (isNativeClick event).
Qed.

Lemma onKeyUp_space_run (self : Instance) (event : KeyboardEvent)
    (w : World) :
  let i := fiber self in
  let w1 := callOptional (onKeyUpProp self) event w in
  keyupPasses self event w1 →
  key event = " " →
  clickOnSpace self = true →
  readCell (activeRef w1) i = true →
  isNativeClick event = false →
  onKeyUp self event w
  = queueMicrotask
      (FireClick (currentTarget event)
                 (restWithoutView event (preventDefault w1)))
      (setActive i false (preventDefault (setActiveRef i false w1))).
Proof.
  intros i w1 (Hdp & Hdup & Hdis & Hmeta) Hkey Hon Hmark Hnat.
  unfold onKeyUp, onKeyUpAt. fold w1 i.
  by rewrite Hdp, Hdup, Hdis, Hmeta, Hmark, Hkey, Hon, Hnat.
Qed.

Lemma onKeyUp_vetoed (self : Instance) (event : KeyboardEvent) (w : World) :
  let w1 := callOptional (onKeyUpProp self) event w in
  defaultPrevented w1 = true ∨ metaKey event = true →
  onKeyUp self event w = w1.
Proof.
  intros w1 Hveto. unfold onKeyUp, onKeyUpAt. fold w1.
  destruct (defaultPrevented w1); [done|].
  destruct Hveto as [?| ->]; [done|].
  by destruct (isDuplicate self), (disabled self).
Qed.

(** C2. With [clickOnSpace] true: a Space keydown that no veto stops, on
    an element that does not click natively, sets the pending marker,
    calls [preventDefault], sets the active flag and queues or dispatches
    no click; a Space keyup that no veto stops and that finds the marker
    set clears it, calls [preventDefault], resets the active flag and
    queues exactly one click with [queueMicrotask]. On an element that
    clicks natively the keydown only sets the marker. The marker set by
    the keydown is still set when the body of the next keyup handler runs,
    the user handler having no access to it. *)
Theorem space_press_and_release (self : Instance) (down up : KeyboardEvent)
    (w w' : World) :
  let i := fiber self in
  let d1 := callOptional (onKeyDownProp self) down w in
  let d2 := onKeyDown self down w in
  let u1 := callOptional (onKeyUpProp self) up w' in
  let u2 := onKeyUp self up w' in
  clickOnSpace self = true →
  key down = " " →
  key up = " " →
  keydownPasses self down d1 →
  (isNativeClick down = false →
     d2 = setActive i true (preventDefault (setActiveRef i true d1))
     ∧ readCell (activeRef d2) i = true
     ∧ defaultPrevented d2 = true
     ∧ readCell (active d2) i = true
     ∧ microtasks d2 = microtasks d1
     ∧ beforeEvent d2 = beforeEvent d1
     ∧ clicks d2 = clicks d1)
  ∧ (keyupPasses self up u1 →
     readCell (activeRef u1) i = true →
     isNativeClick up = false →
     readCell (activeRef u2) i = false
     ∧ defaultPrevented u2 = true
     ∧ readCell (active u2) i = false
     ∧ microtasks u2
       = microtasks u1
         ++ [FireClick (currentTarget up)
                       (restWithoutView up (preventDefault u1))]
     ∧ beforeEvent u2 = beforeEvent u1
     ∧ clicks u2 = clicks u1)
  ∧ (isNativeClick down = true →
     d2 = setActiveRef i true d1
     ∧ readCell (activeRef d2) i = true
     ∧ defaultPrevented d2 = false
     ∧ microtasks d2 = microtasks d1
     ∧ beforeEvent d2 = beforeEvent d1
     ∧ clicks d2 = clicks d1)
  ∧ (keepsCells i (onKeyUpProp self) →
     ∀ dp, readCell
             (activeRef (callOptional (onKeyUpProp self) up (nextEvent dp d2)))
             i = true).
Proof.
  intros i d1 d2 u1 u2 Hon Hdown Hup Hpass.
  pose proof (onKeyDown_space_run self down w Hpass Hdown Hon) as Hd2.
  fold i d1 d2 in Hd2. destruct Hpass as (Hdp & _).
  split; [|split; [|split]].
  - intros Hnat. rewrite Hnat in Hd2. rewrite Hd2. simpl.
    by rewrite !readCell_insert.
  - intros Hupass Hmark Hnat. unfold u2.
    rewrite (onKeyUp_space_run self up w' Hupass Hup Hon Hmark Hnat).
    fold i u1. simpl. by rewrite !readCell_insert.
  - intros Hnat. rewrite Hnat in Hd2. rewrite Hd2. simpl.
    by rewrite readCell_insert.
  - intros Hkeep dp. unfold readCell.
    destruct (Hkeep up (nextEvent dp d2)) as [-> _]. simpl.
    rewrite Hd2. destruct (isNativeClick down); simpl;
      by rewrite lookup_insert_eq.
Qed.

(** ** The keyup handler *)

(** C5, as the code has it. After the user-supplied [onKeyUp] has run, the
    keyup handler returns with nothing else done at the first of these
    that holds, in this order: the default was prevented, the instance is
    a duplicate registration, the element is disabled, the meta key is
    held. It consults neither [isSelfTarget] nor [isTextField] nor
    [isContentEditable]: past the four vetoes, a Space keyup that finds
    the marker set on a non-native element queues the click whatever
    these three say. *)
Theorem onKeyUp_veto_chain (self : Instance) (event : KeyboardEvent)
    (w : World) :
  let w1 := callOptional (onKeyUpProp self) event w in
  onKeyUpAt self event w = onKeyUpAt (bare self) event w1
  ∧ (defaultPrevented w1 = true →
     onKeyUpAt self event w = (AtDefaultPrevented, w1))
  ∧ (defaultPrevented w1 = false → isDuplicate self = true →
     onKeyUpAt self event w = (AtDuplicate, w1))
  ∧ (defaultPrevented w1 = false → isDuplicate self = false →
     disabled self = true →
     onKeyUpAt self event w = (AtDisabled, w1))
  ∧ (defaultPrevented w1 = false → isDuplicate self = false →
     disabled self = false → metaKey event = true →
     onKeyUpAt self event w = (AtMetaKey, w1))
  ∧ (keyupPasses self event w1 → (onKeyUpAt self event w).1 = AtEnd)
  ∧ (∀ env' : Collaborators,
       @isButton env' = @isButton env →
       @onKeyUpAt env' self event w = @onKeyUpAt env self event w)
  ∧ (keyupPasses self event w1 →
     clickOnSpace self = true → key event = " " →
     readCell (activeRef w1) (fiber self) = true →
     isNativeClick event = false →
     microtasks (onKeyUp self event w)
     = microtasks w1
       ++ [FireClick (currentTarget event)
                     (restWithoutView event (preventDefault w1))]).
Proof.
  intros w1. unfold onKeyUp, onKeyUpAt. simpl. fold w1.
  split; [reflexivity|].
  repeat split.
  - by intros ->.
  - by intros -> ->.
  - by intros -> -> ->.
  - by intros -> -> -> ->.
  - intros (-> & -> & -> & ->).
    repeat (match goal with |- context [if ?b then _ else _] =>
              destruct b end; simpl; auto).
  - intros env' Hbtn. unfold isNativeClick. by rewrite Hbtn.
  - intros (-> & -> & -> & ->) -> -> -> ->. reflexivity.
Qed.

(** ** What one invocation can do *)

Lemma onKeyDown_cases (self : Instance) (event : KeyboardEvent) (w : World) :
  let i := fiber self in
  let element := currentTarget event in
  let d1 := callOptional (onKeyDownProp self) event w in
  let d2 := onKeyDown self event w in
  let click :=
    FireClick element (restWithoutView event (preventDefault d1)) in
  d2 = d1
  ∨ d2 = preventDefault d1
  ∨ (key event = "Enter" ∧ keydownPasses self event d1
     ∧ d2 = queueBeforeEvent element "keyup" click (preventDefault d1))
  ∨ (key event = "Enter" ∧ keydownPasses self event d1
     ∧ d2 = queueMicrotask click (preventDefault d1))
  ∨ (key event = " " ∧ d2 = setActiveRef i true d1)
  ∨ (key event = " "
     ∧ d2 = setActive i true (preventDefault (setActiveRef i true d1))).
Proof.
  intros i element d1 d2 click.
  unfold d2, onKeyDown, onKeyDownAt, keydownPasses. fold d1 element i.
  destruct (defaultPrevented d1); [by left|].
  destruct (isDuplicate self); [by left|].
  destruct (disabled self); [by left|].
  destruct (isSelfTarget event); [|by left].
  destruct (isTextField element); [by left|].
  destruct (isContentEditable element); [by left|].
  simpl.
  destruct (String.eqb (key event) "Enter") eqn:HE.
  - apply eqb_true in HE. rewrite HE. simpl.
    destruct (clickOnEnter self); simpl; [|by right; left].
    destruct (isNativeClick _); simpl; [by left|].
    destruct isFirefox.
    + right; right; left. by rewrite <- HE.
    + right; right; right; left. by rewrite <- HE.
  - rewrite andb_false_r. simpl.
    destruct (String.eqb (key event) " ") eqn:HS.
    + apply eqb_true in HS.
      destruct (clickOnSpace self); simpl; [|by right; left].
      destruct (isNativeClick _); simpl.
      * by right; right; right; right; left.
      * by right; right; right; right; right.
    + rewrite andb_false_r. by left.
Qed.

Lemma onKeyUp_cases (self : Instance) (event : KeyboardEvent) (w : World) :
  let i := fiber self in
  let u1 := callOptional (onKeyUpProp self) event w in
  let u2 := onKeyUp self event w in
  let click :=
    FireClick (currentTarget event)
              (restWithoutView event (preventDefault u1)) in
  u2 = u1
  ∨ (key event = " " ∧ u2 = setActiveRef i false u1)
  ∨ (key event = " " ∧ keyupPasses self event u1
     ∧ readCell (activeRef u1) i = true
     ∧ isNativeClick event = false
     ∧ u2 = queueMicrotask click
              (setActive i false (preventDefault (setActiveRef i false u1)))).
Proof.
  intros i u1 u2 click.
  unfold u2, onKeyUp, onKeyUpAt, keyupPasses. fold u1 i.
  destruct (defaultPrevented u1); [by left|].
  destruct (isDuplicate self); [by left|].
  destruct (disabled self); [by left|].
  destruct (metaKey event); [by left|].
  destruct (readCell (activeRef u1) i); simpl; [|by left].
  destruct (clickOnSpace self); simpl; [|by left].
  destruct (String.eqb (key event) " ") eqn:HS; [|by left].
  apply eqb_true in HS.
  destruct (isNativeClick event) eqn:Hnat; simpl.
  - by right; left.
  - by right; right.
Qed.

(** ** The init of a synthesized click *)

(** C7. Whatever a keydown or keyup invocation queues is a click on the
    event's own element whose init is the event's properties without
    [view]: [view] is absent from it, every other property is the event's,
    and so are in particular [shiftKey], [ctrlKey], [altKey] and
    [metaKey]. *)
Theorem synthesized_click_init (self : Instance) (event : KeyboardEvent)
    (w : World) :
  let fromEvent (t : Task) : Prop :=
    match t with
    | FireClick element eventInit =>
        element = currentTarget event
        ∧ eventInit !! "view" = None
        ∧ (∀ k, k ≠ "view" → eventInit !! k = ownProps event true !! k)
        ∧ eventInit !! "shiftKey" = Some (VBool (shiftKey event))
        ∧ eventInit !! "ctrlKey" = Some (VBool (ctrlKey event))
        ∧ eventInit !! "altKey" = Some (VBool (altKey event))
        ∧ eventInit !! "metaKey" = Some (VBool (metaKey event))
    end in
  let d1 := callOptional (onKeyDownProp self) event w in
  let d2 := onKeyDown self event w in
  let u1 := callOptional (onKeyUpProp self) event w in
  let u2 := onKeyUp self event w in
  (∃ ts bs,
      microtasks d2 = microtasks d1 ++ ts
      ∧ beforeEvent d2 = beforeEvent d1 ++ bs
      ∧ Forall fromEvent ts
      ∧ Forall (λ b, b.1 = (currentTarget event, "keyup") ∧ fromEvent b.2) bs)
  ∧ (∃ ts,
      microtasks u2 = microtasks u1 ++ ts
      ∧ beforeEvent u2 = beforeEvent u1
      ∧ Forall fromEvent ts).
Proof.
  intros fromEvent d1 d2 u1 u2.
  assert (∀ w0, fromEvent (FireClick (currentTarget event)
                             (restWithoutView event (preventDefault w0))))
    as Hclick.
  { intros w0. simpl. split; [done|].
    split; [apply restWithoutView_view|].
    split; [|apply restWithoutView_modifiers].
    intros k Hk. unfold restWithoutView. simpl.
    by rewrite lookup_delete_ne. }
  split.
  - destruct (onKeyDown_cases self event w)
      as [E|[E|[(_ & _ & E)|[(_ & _ & E)|[(_ & E)|(_ & E)]]]]];
      fold d1 d2 in E; rewrite E; simpl.
    + exists [], []. by rewrite !app_nil_r.
    + exists [], []. by rewrite !app_nil_r.
    + eexists [], [_]. rewrite app_nil_r.
      repeat split; [constructor|]. constructor; [|constructor].
      split; [done|]. apply Hclick.
    + eexists [_], []. rewrite app_nil_r.
      repeat split; [|constructor]. constructor; [|constructor].
      apply Hclick.
    + exists [], []. by rewrite !app_nil_r.
    + exists [], []. by rewrite !app_nil_r.
  - destruct (onKeyUp_cases self event w) as [E|[(_ & E)|(_ & _ & _ & _ & E)]];
      fold u1 u2 in E; rewrite E; simpl.
    + exists []. by rewrite !app_nil_r.
    + exists []. by rewrite !app_nil_r.
    + eexists [_]. repeat split. constructor; [|constructor].
      apply Hclick.
Qed.

(** ** One click per key press *)

Lemma registered_handlers (p d : Instance) :
  Registered p d →
  ∀ event w,
    onKeyDown d event w = onKeyDown p event w
    ∧ onKeyUp d event w = onKeyUp p event w.
Proof.
  induction 1 as [|d d' _ IH Hdup Hdown Hup]; [done|].
  intros event w. destruct (IH event w) as [IHd IHu].
  unfold onKeyDown at 1, onKeyUp at 1, onKeyDownAt, onKeyUpAt.
  rewrite Hdown, Hup, Hdup. simpl. rewrite <- IHd, <- IHu.
  split.
  - by destruct (defaultPrevented (onKeyDown d event w)).
  - by destruct (defaultPrevented (onKeyUp d event w)).
Qed.

Lemma pending_onKeyDown (self : Instance) (event : KeyboardEvent) (w : World) :
  let d1 := callOptional (onKeyDownProp self) event w in
  let d2 := onKeyDown self event w in
  clicks d2 = clicks d1
  ∧ (pending d2 = pending d1
     ∨ (key event = "Enter" ∧ pending d2 = pending d1 + 1)).
Proof.
  intros d1 d2.
  destruct (onKeyDown_cases self event w)
    as [E|[E|[(K & _ & E)|[(K & _ & E)|[(_ & E)|(_ & E)]]]]];
    fold d1 d2 in E; rewrite E; unfold pending; simpl;
    (split; [done|]); try by left.
  - right. split; [done|]. rewrite length_app. simpl. lia.
  - right. split; [done|]. rewrite length_app. simpl. lia.
Qed.

Lemma pending_onKeyUp (self : Instance) (event : KeyboardEvent) (w : World) :
  let u1 := callOptional (onKeyUpProp self) event w in
  let u2 := onKeyUp self event w in
  clicks u2 = clicks u1
  ∧ (pending u2 = pending u1
     ∨ (key event = " " ∧ pending u2 = pending u1 + 1)).
Proof.
  intros u1 u2.
  destruct (onKeyUp_cases self event w) as [E|[(_ & E)|(K & _ & _ & _ & E)]];
    fold u1 u2 in E; rewrite E; unfold pending; simpl;
    (split; [done|]); try by left.
  right. split; [done|]. rewrite length_app. simpl. lia.
Qed.

(** C6. Over one key press (a keydown and the keyup of the same key, the
    keyup in whatever state it finds) the handlers of one registration
    queue at most one click between them and dispatch none themselves.
    A stack of duplicate registrations on top of it changes nothing: the
    handlers of the topmost duplicate do exactly what the handlers of the
    registration do, so an Enter press that the registration turns into a
    click yields exactly one queued click, on keydown, and none on
    keyup. *)
Theorem one_click_per_key_press (p d : Instance) (down up : KeyboardEvent)
    (w w' : World) :
  let d1 := callOptional (onKeyDownProp p) down w in
  let d2 := onKeyDown d down w in
  let u1 := callOptional (onKeyUpProp p) up w' in
  let u2 := onKeyUp d up w' in
  Registered p d →
  key down = key up →
  d2 = onKeyDown p down w
  ∧ u2 = onKeyUp p up w'
  ∧ pending d1 ≤ pending d2
  ∧ pending u1 ≤ pending u2
  ∧ pending d2 + pending u2 ≤ pending d1 + pending u1 + 1
  ∧ clicks d2 = clicks d1
  ∧ clicks u2 = clicks u1
  ∧ (key down = "Enter" → keydownPasses p down d1 →
     clickOnEnter p = true → isNativeClick down = false →
     pending d2 = pending d1 + 1 ∧ pending u2 = pending u1).
Proof.
  intros d1 d2 u1 u2 Hreg Hkey.
  destruct (registered_handlers p d Hreg down w) as [Hd _].
  destruct (registered_handlers p d Hreg up w') as [_ Hu].
  unfold d2, u2. rewrite Hd, Hu. clear d2 u2 Hd Hu.
  destruct (pending_onKeyDown p down w) as [Hcd Hpd].
  destruct (pending_onKeyUp p up w') as [Hcu Hpu].
  fold d1 in Hcd, Hpd. fold u1 in Hcu, Hpu.
  split; [done|]. split; [done|].
  assert (key down = "Enter" → pending (onKeyUp p up w') = pending u1)
    as Henter.
  { intros HE. destruct Hpu as [?|[HS _]]; [done|].
    rewrite <- Hkey, HE in HS. discriminate. }
  split; [|split; [|split; [|split; [done|split; [done|]]]]].
  - destruct Hpd as [->|[_ ->]]; lia.
  - destruct Hpu as [->|[_ ->]]; lia.
  - destruct Hpd as [->|[HE ->]].
    + destruct Hpu as [->|[_ ->]]; lia.
    + rewrite (Henter HE). lia.
  - intros HE Hpass Hon Hnat. split; [|by apply Henter].
    rewrite (onKeyDown_enter_run p down w Hpass HE Hon Hnat). fold d1.
    unfold pending.
    destruct isFirefox; simpl; rewrite length_app; simpl; lia.
Qed.

(** ** A vetoed release *)

Lemma keepsCells_read (i : nat) (h : option Handler) event w :
  keepsCells i h →
  readCell (activeRef (callOptional h event w)) i = readCell (activeRef w) i
  ∧ readCell (active (callOptional h event w)) i = readCell (active w) i.
Proof.
  intros Hkeep. unfold readCell. by destruct (Hkeep event w) as [-> ->].
Qed.

(** C10. After a Space keydown on a non-native element has set the
    pending marker and the active flag, a keyup that is vetoed (its
    default prevented by the user handler, or the meta key held) changes
    nothing: marker and flag stay set and [data-active] keeps the value
    it has when the flag is set. No keydown ever resets the flag, and a
    keyup resets it only as a Space keyup that passes the vetoes and finds
    the marker set on a non-native element. Such a later keyup, with no
    keydown in between, clears the marker, resets the flag and queues a
    synthesized click. *)
Theorem vetoed_release_keeps_active (self : Instance)
    (down up1 up2 : KeyboardEvent) (w : World) (dp1 dp2 : bool) :
  let i := fiber self in
  let d1 := callOptional (onKeyDownProp self) down w in
  let w1 := onKeyDown self down w in
  let v1 := callOptional (onKeyUpProp self) up1 (nextEvent dp1 w1) in
  let w2 := onKeyUp self up1 (nextEvent dp1 w1) in
  let v2 := callOptional (onKeyUpProp self) up2 (nextEvent dp2 w2) in
  let w3 := onKeyUp self up2 (nextEvent dp2 w2) in
  keepsCells i (onKeyUpProp self) →
  clickOnSpace self = true →
  key down = " " →
  keydownPasses self down d1 →
  isNativeClick down = false →
  defaultPrevented v1 = true ∨ metaKey up1 = true →
  key up2 = " " →
  keyupPasses self up2 v2 →
  isNativeClick up2 = false →
  (readCell (activeRef w1) i = true ∧ readCell (active w1) i = true)
  ∧ (w2 = v1
     ∧ readCell (activeRef w2) i = true
     ∧ readCell (active w2) i = true
     ∧ dataActive i w2 = PVal (VBool true)
     ∧ pending w2 = pending v1)
  ∧ (∀ event w0,
       readCell (active (callOptional (onKeyDownProp self) event w0)) i = true →
       readCell (active (onKeyDown self event w0)) i = true)
  ∧ (∀ event w0,
       let u1 := callOptional (onKeyUpProp self) event w0 in
       readCell (active u1) i = true →
       readCell (active (onKeyUp self event w0)) i = false →
       key event = " " ∧ keyupPasses self event u1
       ∧ readCell (activeRef u1) i = true ∧ isNativeClick event = false)
  ∧ (readCell (activeRef w3) i = false
     ∧ readCell (active w3) i = false
     ∧ microtasks w3
       = microtasks v2
         ++ [FireClick (currentTarget up2)
                       (restWithoutView up2 (preventDefault v2))]).
Proof.
  intros i d1 w1 v1 w2 v2 w3 Hkeep Hon Hdown Hpass Hnat Hveto Hup2 Hpass2 Hnat2.
  pose proof (onKeyDown_space_run self down w Hpass Hdown Hon) as Hw1.
  rewrite Hnat in Hw1. fold i d1 w1 in Hw1.
  assert (readCell (activeRef w1) i = true ∧ readCell (active w1) i = true)
    as [Hm1 Ha1].
  { rewrite Hw1. simpl. by rewrite !readCell_insert. }
  assert (w2 = v1) as Hw2 by (by apply onKeyUp_vetoed).
  destruct (keepsCells_read i _ up1 (nextEvent dp1 w1) Hkeep) as [Hm2 Ha2].
  fold v1 in Hm2, Ha2. simpl in Hm2, Ha2. rewrite Hm1 in Hm2. rewrite Ha1 in Ha2.
  destruct (keepsCells_read i _ up2 (nextEvent dp2 w2) Hkeep) as [Hm3 _].
  fold v2 in Hm3. simpl in Hm3. rewrite Hw2, Hm2 in Hm3.
  split; [done|]. split; [|split; [|split]].
  - rewrite Hw2. unfold dataActive. by rewrite Ha2.
  - intros event w0.
    destruct (onKeyDown_cases self event w0)
      as [E|[E|[(_ & _ & E)|[(_ & _ & E)|[(_ & E)|(_ & E)]]]]];
      rewrite E; simpl; try done.
    intros _. apply readCell_insert.
  - intros event w0 u1.
    destruct (onKeyUp_cases self event w0)
      as [E|[(_ & E)|(K & P & M & N & _)]]; [| |done];
      rewrite E; simpl; fold u1; congruence.
  - unfold w3.
    rewrite (onKeyUp_space_run self up2 (nextEvent dp2 w2)
               Hpass2 Hup2 Hon Hm3 Hnat2).
    fold i v2. simpl. by rewrite !readCell_insert.
Qed.

(** ** The returned props *)

Lemma restProps_lookup (props0 : Props) (k : string) :
  k ≠ "clickOnEnter" → k ≠ "clickOnSpace" →
  restProps props0 !! k = props0 !! k.
Proof.
  intros H1 H2. unfold restProps.
  by rewrite !lookup_delete_ne.
Qed.

Lemma spread_lookup (base over : Props) (k : string) :
  spread base over !! k
  = match over !! k with Some v => Some v | None => base !! k end.
Proof.
  unfold spread. rewrite lookup_union.
  by destruct (over !! k), (base !! k).
Qed.

(** C9, as the code has it. The hook returns what [useFocusable] makes of
    an object in which [onKeyDown] and [onKeyUp] are always the hook's own
    handlers, each calling the user-supplied handler of the same name
    first. In that object [data-active] and [type] hold the caller's
    value when the caller's props have the key (even with the value
    [undefined]), else the metadata props' value when they have it, and
    only otherwise the hook's value: [true] for [data-active] when the
    active flag is set and [undefined] when it is not, ["button"] for
    [type] when the native-button flag is set and [undefined] when it is
    not. The native-button flag is what [isButton] answered for the
    mounted element. *)
Theorem useCommand_props (i : nat) (props0 : Props) (w : World) :
  let self := instanceOf i props0 in
  let built := commandProps i props0 w in
  let metadataProps := (useMetadataProps (restProps props0) symbol).2 in
  let merged (k : string) (own : PropValue) : option PropValue :=
    match props0 !! k with
    | Some v => Some v
    | None =>
        match metadataProps !! k with
        | Some v => Some v
        | None => Some own
        end
    end in
  useCommand i props0 w = useFocusable built
  ∧ built !! "onKeyDown" = Some (PFun (onKeyDown self))
  ∧ built !! "onKeyUp" = Some (PFun (onKeyUp self))
  ∧ onKeyDownProp self = handlerOf (props0 !! "onKeyDown")
  ∧ onKeyUpProp self = handlerOf (props0 !! "onKeyUp")
  ∧ (∀ event w0,
       onKeyDown self event w0
       = onKeyDown (bare self) event
           (callOptional (handlerOf (props0 !! "onKeyDown")) event w0)
       ∧ onKeyUp self event w0
         = onKeyUp (bare self) event
             (callOptional (handlerOf (props0 !! "onKeyUp")) event w0))
  ∧ built !! "data-active" = merged "data-active" (dataActive i w)
  ∧ built !! "type" = merged "type" (typeAttr i w)
  ∧ (dataActive i w = PVal (VBool true) ↔ readCell (active w) i = true)
  ∧ (dataActive i w = PVal VUndefined ↔ readCell (active w) i = false)
  ∧ (typeAttr i w = PVal (VStr "button")
     ↔ readCell (isNativeButton w) i = true)
  ∧ (typeAttr i w = PVal VUndefined ↔ readCell (isNativeButton w) i = false)
  ∧ (∀ element w0,
       readCell (isNativeButton (mountEffect i (Some element) w0)) i
       = isButton element).
Proof.
  intros self built metadataProps merged.
  assert (∀ k own0, k ≠ "onKeyUp" → k ≠ "onKeyDown" → k ≠ "ref" →
          k ≠ "clickOnEnter" → k ≠ "clickOnSpace" →
          ∀ own : Props, own !! k = Some own0 →
          (<["onKeyUp" := PFun (useEvent (onKeyUp self))]>
             (<["onKeyDown" := PFun (useEvent (onKeyDown self))]>
                (<["ref" := useMergeRefs i (restProps props0 !! "ref")]>
                   (spread (spread own metadataProps) (restProps props0)))))
          !! k = merged k own0) as Hmerged.
  { intros k own0 H1 H2 H3 H4 H5 own Hown.
    rewrite !lookup_insert_ne by done.
    rewrite !spread_lookup, restProps_lookup by done.
    rewrite Hown. reflexivity. }
  split; [reflexivity|].
  split; [unfold built, commandProps;
          by rewrite lookup_insert_ne, lookup_insert_eq|].
  split; [unfold built, commandProps; by rewrite lookup_insert_eq|].
  split; [simpl; by rewrite restProps_lookup|].
  split; [simpl; by rewrite restProps_lookup|].
  split.
  { intros event w0. unfold onKeyDown, onKeyUp, onKeyDownAt, onKeyUpAt.
    simpl. by rewrite !restProps_lookup. }
  split.
  { unfold built, commandProps. by apply Hmerged. }
  split.
  { unfold built, commandProps. by apply Hmerged. }
  unfold dataActive, typeAttr.
  repeat split; try (by destruct (readCell _ i)).
  intros element w0. simpl. apply readCell_insert.
Qed.

End Properties.

(** * Further behaviour of the handlers *)

Section Behaviour.

Context {env : Collaborators}.

Ltac split_if :=
  repeat match goal with
         | |- context [if ?b then _ else _] => destruct b eqn:?
         end.

(** The keydown handler as a decision table. *)
Lemma onKeyDown_outcome (self : Instance) (event : KeyboardEvent) (w : World) :
  let i := fiber self in
  let element := currentTarget event in
  let d1 := callOptional (onKeyDownProp self) event w in
  let click :=
    FireClick element (restWithoutView event (preventDefault d1)) in
  onKeyDown self event w
  = if defaultPrevented d1 || isDuplicate self || disabled self
       || negb (isSelfTarget event) || isTextField element
       || isContentEditable element
    then d1
    else if String.eqb (key event) "Enter" then
      if clickOnEnter self then
        if isNativeClick event then d1
        else if isFirefox
             then queueBeforeEvent element "keyup" click (preventDefault d1)
             else queueMicrotask click (preventDefault d1)
      else preventDefault d1
    else if String.eqb (key event) " " then
      if clickOnSpace self then
        if isNativeClick event then setActiveRef i true d1
        else setActive i true (preventDefault (setActiveRef i true d1))
      else preventDefault d1
    else d1.
Proof.
  intros i element d1 click.
  unfold onKeyDown, onKeyDownAt. fold d1 element i.
  destruct (defaultPrevented d1); [done|].
  destruct (isDuplicate self); [done|].
  destruct (disabled self); [done|].
  destruct (isSelfTarget event); [|done].
  destruct (isTextField element); [done|].
  destruct (isContentEditable element); [done|].
  simpl.
  destruct (String.eqb (key event) "Enter") eqn:HE.
  - apply eqb_true in HE. rewrite HE. simpl.
    destruct (clickOnEnter self); simpl; [|done].
    destruct (isNativeClick event); simpl; [done|].
    by destruct isFirefox.
  - rewrite andb_false_r. simpl.
    destruct (String.eqb (key event) " "); simpl.
    + destruct (clickOnSpace self); simpl; [|done].
      by destruct (isNativeClick event).
    + by rewrite andb_false_r.
Qed.

(** The keyup handler as a decision table. *)
Lemma onKeyUp_outcome (self : Instance) (event : KeyboardEvent) (w : World) :
  let i := fiber self in
  let u1 := callOptional (onKeyUpProp self) event w in
  let click :=
    FireClick (currentTarget event)
              (restWithoutView event (preventDefault u1)) in
  onKeyUp self event w
  = if defaultPrevented u1 || isDuplicate self || disabled self
       || metaKey event
    then u1
    else if readCell (activeRef u1) i && clickOnSpace self
            && String.eqb (key event) " "
    then
      if isNativeClick event then setActiveRef i false u1
      else queueMicrotask click
             (setActive i false (preventDefault (setActiveRef i false u1)))
    else u1.
Proof.
  intros i u1 click.
  unfold onKeyUp, onKeyUpAt. fold u1 i.
  destruct (defaultPrevented u1); [done|].
  destruct (isDuplicate self); [done|].
  destruct (disabled self); [done|].
  destruct (metaKey event); [done|].
  simpl.
  destruct (readCell (activeRef u1) i); simpl; [|done].
  destruct (clickOnSpace self); simpl; [|done].
  destruct (String.eqb (key event) " "); simpl; [|done].
  by destruct (isNativeClick event).
Qed.

(** ** Native elements *)

(** X1. When the classifier says the browser clicks natively for the
    event, neither handler queues or dispatches a click or touches the
    active flag; the keyup never prevents the default, and the keydown
    prevents it only to block a key whose option is off. *)
Theorem native_click_never_synthesized (self : Instance)
    (event : KeyboardEvent) (w w' : World) :
  let i := fiber self in
  let d1 := callOptional (onKeyDownProp self) event w in
  let d2 := onKeyDown self event w in
  let u1 := callOptional (onKeyUpProp self) event w' in
  let u2 := onKeyUp self event w' in
  isNativeClick event = true →
  (microtasks d2 = microtasks d1 ∧ beforeEvent d2 = beforeEvent d1
   ∧ clicks d2 = clicks d1 ∧ active d2 = active d1)
  ∧ (microtasks u2 = microtasks u1 ∧ beforeEvent u2 = beforeEvent u1
     ∧ clicks u2 = clicks u1 ∧ active u2 = active u1
     ∧ defaultPrevented u2 = defaultPrevented u1)
  ∧ ((key event = "Enter" ∧ clickOnEnter self = true)
     ∨ (key event = " " ∧ clickOnSpace self = true) →
     defaultPrevented d2 = defaultPrevented d1).
Proof.
  intros i d1 d2 u1 u2 Hnat.
  pose proof (onKeyDown_outcome self event w) as Hd.
  pose proof (onKeyUp_outcome self event w') as Hu.
  simpl in Hd, Hu. fold i d1 d2 in Hd. fold i u1 u2 in Hu.
  rewrite Hnat in Hd, Hu.
  split; [|split].
  - rewrite Hd. by split_if.
  - rewrite Hu. by split_if.
  - rewrite Hd. intros [[HE Hon]|[HS Hon]].
    + rewrite HE, Hon. simpl. by split_if.
    + rewrite HS, Hon. simpl. by split_if.
Qed.

(** X4. A Space keyup that passes the vetoes and finds the marker set, on
    an element classified as clicking natively, clears the marker and does
    nothing else: the default is not prevented, no click is queued, and
    the active flag keeps whatever value it had, so a flag set by a
    keydown that was classified non-native stays set. *)
Theorem native_release_only_clears_marker (self : Instance)
    (event : KeyboardEvent) (w : World) :
  let i := fiber self in
  let u1 := callOptional (onKeyUpProp self) event w in
  let u2 := onKeyUp self event w in
  keyupPasses self event u1 →
  key event = " " →
  clickOnSpace self = true →
  readCell (activeRef u1) i = true →
  isNativeClick event = true →
  u2 = setActiveRef i false u1
  ∧ readCell (activeRef u2) i = false
  ∧ readCell (active u2) i = readCell (active u1) i
  ∧ defaultPrevented u2 = false
  ∧ pending u2 = pending u1.
Proof.
  intros i u1 u2 (Hdp & Hdup & Hdis & Hmeta) Hkey Hon Hmark Hnat.
  assert (u2 = setActiveRef i false u1) as ->.
  { unfold u2. rewrite onKeyUp_outcome. fold i u1.
    by rewrite Hdp, Hdup, Hdis, Hmeta, Hmark, Hon, Hkey, Hnat. }
  simpl. by rewrite readCell_insert.
Qed.

(** ** Keys and events the handlers ignore *)

(** X2. The keyup handler does nothing of its own for any key but Space
    (Enter included), and the keydown handler does nothing of its own for
    any key but Enter and Space: the state is the one the user handler
    left. *)
Theorem other_keys_pass_through (self : Instance) (event : KeyboardEvent)
    (w : World) :
  key event ≠ " " →
  onKeyUp self event w = callOptional (onKeyUpProp self) event w
  ∧ (key event ≠ "Enter" →
     onKeyDown self event w = callOptional (onKeyDownProp self) event w).
Proof.
  intros HS%eqb_false. split.
  - rewrite onKeyUp_outcome. simpl. rewrite HS, andb_false_r.
    by split_if.
  - intros HE%eqb_false. rewrite onKeyDown_outcome. simpl. rewrite HS, HE.
    by split_if.
Qed.

(** X3. A keyup does nothing of its own when the pending marker is not
    set (no Space keydown was accepted before it) or when [clickOnSpace]
    is off. *)
Theorem keyup_without_marker (self : Instance) (event : KeyboardEvent)
    (w : World) :
  let u1 := callOptional (onKeyUpProp self) event w in
  readCell (activeRef u1) (fiber self) = false ∨ clickOnSpace self = false →
  onKeyUp self event w = u1.
Proof.
  intros u1 Hoff. rewrite onKeyUp_outcome. simpl. fold u1.
  destruct Hoff as [-> | ->]; simpl; [|rewrite andb_false_r];
    by split_if.
Qed.

(** X5. The marker of an instance is set only by a Space keydown of that
    instance that passes every veto with [clickOnSpace] on; no keyup ever
    sets it. *)
Theorem marker_provenance (self : Instance) (event : KeyboardEvent)
    (w : World) :
  let i := fiber self in
  let d1 := callOptional (onKeyDownProp self) event w in
  let u1 := callOptional (onKeyUpProp self) event w in
  (readCell (activeRef (onKeyDown self event w)) i = true →
   readCell (activeRef d1) i = true
   ∨ (key event = " " ∧ clickOnSpace self = true
      ∧ keydownPasses self event d1))
  ∧ (readCell (activeRef (onKeyUp self event w)) i = true →
     readCell (activeRef u1) i = true).
Proof.
  intros i d1 u1. split.
  - rewrite onKeyDown_outcome. simpl. fold i d1. unfold keydownPasses.
    destruct (defaultPrevented d1), (isDuplicate self), (disabled self),
      (isSelfTarget event), (isTextField (currentTarget event)),
      (isContentEditable (currentTarget event)); simpl; auto.
    destruct (String.eqb (key event) "Enter"); [split_if; auto|].
    destruct (String.eqb (key event) " ") eqn:HS; [|auto].
    apply eqb_true in HS.
    destruct (clickOnSpace self); [|auto]. intros _. right. done.
  - rewrite onKeyUp_outcome. simpl. fold i u1.
    split_if; simpl; auto; rewrite readCell_insert; done.
Qed.

(** ** What an invocation leaves alone *)

(** X6. The handlers of instance [i] never write the marker or the active
    flag of another instance, never write any native-button flag, never
    dispatch a click themselves and never take anything out of a queue;
    the keyup never registers with [queueBeforeEvent]. *)
Theorem handlers_keep_to_their_instance (self : Instance)
    (event : KeyboardEvent) (w : World) :
  let i := fiber self in
  let d1 := callOptional (onKeyDownProp self) event w in
  let d2 := onKeyDown self event w in
  let u1 := callOptional (onKeyUpProp self) event w in
  let u2 := onKeyUp self event w in
  (∀ j, j ≠ i →
     activeRef d2 !! j = activeRef d1 !! j ∧ active d2 !! j = active d1 !! j
     ∧ activeRef u2 !! j = activeRef u1 !! j ∧ active u2 !! j = active u1 !! j)
  ∧ isNativeButton d2 = isNativeButton d1
  ∧ isNativeButton u2 = isNativeButton u1
  ∧ clicks d2 = clicks d1
  ∧ clicks u2 = clicks u1
  ∧ (∃ ts, microtasks d2 = microtasks d1 ++ ts)
  ∧ (∃ bs, beforeEvent d2 = beforeEvent d1 ++ bs)
  ∧ (∃ ts, microtasks u2 = microtasks u1 ++ ts)
  ∧ beforeEvent u2 = beforeEvent u1.
Proof.
  intros i d1 d2 u1 u2.
  pose proof (onKeyDown_outcome self event w) as Hd.
  pose proof (onKeyUp_outcome self event w) as Hu.
  simpl in Hd, Hu. fold i d1 d2 in Hd. fold i u1 u2 in Hu.
  split; [|split; [|split; [|split; [|split; [|split; [|split; [|split]]]]]]].
  - intros j Hj. rewrite Hd, Hu.
    split_if; simpl; rewrite ?lookup_insert_ne by done; done.
  - rewrite Hd. by split_if.
  - rewrite Hu. by split_if.
  - rewrite Hd. by split_if.
  - rewrite Hu. by split_if.
  - rewrite Hd. split_if; simpl;
      first [by exists []; rewrite app_nil_r | by eexists [_]].
  - rewrite Hd. split_if; simpl;
      first [by exists []; rewrite app_nil_r | by eexists [_]].
  - rewrite Hu. split_if; simpl;
      first [by exists []; rewrite app_nil_r | by eexists [_]].
  - rewrite Hu. by split_if.
Qed.

Lemma invocation_pending (self : Instance)
    (event : KeyboardEvent) (w : World) :
  let d1 := callOptional (onKeyDownProp self) event w in
  let d2 := onKeyDown self event w in
  let u1 := callOptional (onKeyUpProp self) event w in
  let u2 := onKeyUp self event w in
  (pending d2 = pending d1
   ∨ (pending d2 = pending d1 + 1
      ∧ defaultPrevented d1 = false ∧ defaultPrevented d2 = true))
  ∧ (pending u2 = pending u1
     ∨ (pending u2 = pending u1 + 1
        ∧ defaultPrevented u1 = false ∧ defaultPrevented u2 = true))
  ∧ (defaultPrevented d1 = true → d2 = d1)
  ∧ (defaultPrevented u1 = true → u2 = u1).
Proof.
  intros d1 d2 u1 u2.
  pose proof (onKeyDown_outcome self event w) as Hd.
  pose proof (onKeyUp_outcome self event w) as Hu.
  simpl in Hd, Hu. fold d1 d2 in Hd. fold u1 u2 in Hu.
  split; [|split; [|split]].
  - rewrite Hd. unfold pending.
    destruct (defaultPrevented d1); simpl; [by left|].
    split_if; simpl; rewrite ?length_app; simpl;
      first [by left | right; split; [lia|done]].
  - rewrite Hu. unfold pending.
    destruct (defaultPrevented u1); simpl; [by left|].
    split_if; simpl; rewrite ?length_app; simpl;
      first [by left | right; split; [lia|done]].
  - intros Hp. rewrite Hd, Hp. done.
  - intros Hp. rewrite Hu, Hp. done.
Qed.

(** X7. An invocation queues at most one click, and whenever it queues
    one it has called [preventDefault] on an event whose default was not
    prevented before; when the default was already prevented it changes
    nothing. *)
Theorem queued_click_prevents_default (self : Instance)
    (event : KeyboardEvent) (w : World) :
  let d1 := callOptional (onKeyDownProp self) event w in
  let d2 := onKeyDown self event w in
  let u1 := callOptional (onKeyUpProp self) event w in
  let u2 := onKeyUp self event w in
  (pending d2 = pending d1
   ∨ (pending d2 = pending d1 + 1
      ∧ defaultPrevented d1 = false ∧ defaultPrevented d2 = true))
  ∧ (pending u2 = pending u1
     ∨ (pending u2 = pending u1 + 1
        ∧ defaultPrevented u1 = false ∧ defaultPrevented u2 = true))
  ∧ (defaultPrevented d1 = true → d2 = d1)
  ∧ (defaultPrevented u1 = true → u2 = u1).
Proof. apply invocation_pending. Qed.

(** ** Stacked registrations *)

Lemma stacked_invariant (p d : Instance) (event : KeyboardEvent) (w : World) :
  Stacked p d →
  let d1 := callOptional (onKeyDownProp p) event w in
  let u1 := callOptional (onKeyUpProp p) event w in
  (pending (onKeyDown d event w) = pending d1
   ∨ (pending (onKeyDown d event w) = pending d1 + 1
      ∧ defaultPrevented (onKeyDown d event w) = true))
  ∧ (pending (onKeyUp d event w) = pending u1
     ∨ (pending (onKeyUp d event w) = pending u1 + 1
        ∧ defaultPrevented (onKeyUp d event w) = true)).
Proof.
  intros Hst d1 u1.
  induction Hst as [|d d' _ [IHd IHu] Hdown Hup].
  - destruct (invocation_pending p event w) as (Hd & Hu & _).
    split; [destruct Hd as [?|(? & _ & ?)] | destruct Hu as [?|(? & _ & ?)]];
      auto.
  - destruct (invocation_pending d' event w)
      as (Hd & Hu & Hpd & Hpu).
    rewrite Hdown, Hup in *. simpl in *.
    split.
    + destruct IHd as [E|[E P]].
      * rewrite <- E. destruct Hd as [?|(? & _ & ?)]; auto.
      * rewrite (Hpd P). auto.
    + destruct IHu as [E|[E P]].
      * rewrite <- E. destruct Hu as [?|(? & _ & ?)]; auto.
      * rewrite (Hpu P). auto.
Qed.

(** X8. However many registrations are stacked on one element, and
    whether or not the outer ones found the duplicate marker, one keydown
    and one keyup each queue at most one click: once a registration has
    queued a click it has prevented the default, and every registration
    above it returns at its first check. *)
Theorem stacked_registrations_queue_once (p d : Instance)
    (event : KeyboardEvent) (w : World) :
  Stacked p d →
  let d1 := callOptional (onKeyDownProp p) event w in
  let u1 := callOptional (onKeyUpProp p) event w in
  pending d1 ≤ pending (onKeyDown d event w)
  ∧ pending (onKeyDown d event w) ≤ pending d1 + 1
  ∧ pending u1 ≤ pending (onKeyUp d event w)
  ∧ pending (onKeyUp d event w) ≤ pending u1 + 1.
Proof.
  intros Hst d1 u1.
  destruct (stacked_invariant p d event w Hst) as [Hd Hu].
  fold d1 in Hd. fold u1 in Hu.
  destruct Hd as [->|[-> _]], Hu as [->|[-> _]]; lia.
Qed.

(** ** A held key *)

Lemma keydownPasses_nextEvent (self : Instance) (event : KeyboardEvent)
    (w w' : World) :
  keydownPasses self event (nextEvent false w) →
  keydownPasses self event (nextEvent false w').
Proof. unfold keydownPasses. simpl. tauto. Qed.

(** X9. The keydown handler does not look at key repetition: with no
    user handler, a non-native Enter held for [n] keydowns queues [n]
    clicks and dispatches none itself. *)
Theorem held_enter_clicks_each_repeat (self : Instance)
    (event : KeyboardEvent) (n : nat) (w : World) :
  onKeyDownProp self = None →
  keydownPasses self event (nextEvent false w) →
  key event = "Enter" →
  clickOnEnter self = true →
  isNativeClick event = false →
  pending (repeatKeyDown self event n w) = pending w + n
  ∧ clicks (repeatKeyDown self event n w) = clicks w.
Proof.
  intros Hnone Hpass Hkey Hon Hnat. revert w Hpass.
  induction n as [|n IH]; intros w Hpass; simpl; [split; [lia|done]|].
  assert (keydownPasses self event
            (callOptional (onKeyDownProp self) event (nextEvent false w)))
    as Hpass' by (by rewrite Hnone).
  pose proof (onKeyDown_enter_run self event (nextEvent false w)
                Hpass' Hkey Hon Hnat) as Hrun.
  rewrite Hnone in Hrun. simpl in Hrun.
  set (w1 := onKeyDown self event (nextEvent false w)) in *.
  destruct (IH w1 (keydownPasses_nextEvent self event w w1 Hpass))
    as [-> ->].
  rewrite Hrun. unfold pending.
  destruct isFirefox; simpl; rewrite length_app; simpl; split; (lia || done).
Qed.

Lemma held_space_invariant (self : Instance) (event : KeyboardEvent)
    (n : nat) (w : World) :
  let i := fiber self in
  onKeyDownProp self = None →
  keydownPasses self event (nextEvent false w) →
  key event = " " →
  clickOnSpace self = true →
  isNativeClick event = false →
  pending (repeatKeyDown self event n w) = pending w
  ∧ clicks (repeatKeyDown self event n w) = clicks w
  ∧ (readCell (activeRef w) i = true → readCell (active w) i = true →
     readCell (activeRef (repeatKeyDown self event n w)) i = true
     ∧ readCell (active (repeatKeyDown self event n w)) i = true).
Proof.
  intros i Hnone Hpass Hkey Hon Hnat. revert w Hpass.
  induction n as [|n IH]; intros w Hpass; simpl; [done|].
  assert (keydownPasses self event
            (callOptional (onKeyDownProp self) event (nextEvent false w)))
    as Hpass' by (by rewrite Hnone).
  pose proof (onKeyDown_space_run self event (nextEvent false w)
                Hpass' Hkey Hon) as Hrun.
  rewrite Hnone, Hnat in Hrun. simpl in Hrun. fold i in Hrun.
  set (w1 := onKeyDown self event (nextEvent false w)) in *.
  destruct (IH w1 (keydownPasses_nextEvent self event w w1 Hpass))
    as (-> & -> & Hcells).
  assert (pending w1 = pending w ∧ clicks w1 = clicks w
          ∧ readCell (activeRef w1) i = true
          ∧ readCell (active w1) i = true) as (-> & -> & Hm & Ha).
  { rewrite Hrun. simpl. by rewrite !readCell_insert. }
  split; [done|]. split; [done|]. intros _ _. by apply Hcells.
Qed.

(** X10. With no user handlers, a non-native Space held for any number
    of keydowns queues nothing while it is held and leaves the marker and
    the active flag set; its release queues exactly one click and clears
    both. *)
Theorem held_space_clicks_once (self : Instance) (down up : KeyboardEvent)
    (n : nat) (w : World) :
  let i := fiber self in
  let held := repeatKeyDown self down (S n) w in
  let released := onKeyUp self up (nextEvent false held) in
  onKeyDownProp self = None →
  onKeyUpProp self = None →
  keydownPasses self down (nextEvent false w) →
  key down = " " →
  key up = " " →
  metaKey up = false →
  clickOnSpace self = true →
  isNativeClick down = false →
  isNativeClick up = false →
  pending held = pending w
  ∧ readCell (activeRef held) i = true
  ∧ readCell (active held) i = true
  ∧ pending released = pending w + 1
  ∧ readCell (activeRef released) i = false
  ∧ readCell (active released) i = false
  ∧ clicks released = clicks w.
Proof.
  intros i held released Hnone Hnone' Hpass Hdown Hup Hmeta Hon Hnat Hnat'.
  assert (keydownPasses self down
            (callOptional (onKeyDownProp self) down (nextEvent false w)))
    as Hpass' by (by rewrite Hnone).
  pose proof (onKeyDown_space_run self down (nextEvent false w)
                Hpass' Hdown Hon) as Hrun.
  rewrite Hnone, Hnat in Hrun. simpl in Hrun. fold i in Hrun.
  set (w1 := onKeyDown self down (nextEvent false w)) in *.
  destruct (held_space_invariant self down n w1 Hnone
              (keydownPasses_nextEvent self down w w1 Hpass) Hdown Hon Hnat)
    as (Hp & Hc & Hcells).
  fold i in Hcells.
  assert (pending w1 = pending w ∧ clicks w1 = clicks w
          ∧ readCell (activeRef w1) i = true
          ∧ readCell (active w1) i = true) as (Hp1 & Hc1 & Hm1 & Ha1).
  { rewrite Hrun. simpl. by rewrite !readCell_insert. }
  destruct (Hcells Hm1 Ha1) as [Hm Ha].
  change (repeatKeyDown self down n w1) with held in Hp, Hc, Hm, Ha.
  assert (pending held = pending w ∧ clicks held = clicks w) as [Hp' Hc'].
  { by rewrite Hp, Hc. }
  assert (keyupPasses self up
            (callOptional (onKeyUpProp self) up (nextEvent false held)))
    as Hupass.
  { rewrite Hnone'. destruct Hpass as (_ & ? & ? & _). done. }
  assert (readCell
            (activeRef (callOptional (onKeyUpProp self) up
                          (nextEvent false held))) i = true) as Hmark
    by (by rewrite Hnone').
  pose proof (onKeyUp_space_run self up (nextEvent false held)
                Hupass Hup Hon Hmark Hnat') as Hrel.
  rewrite Hnone' in Hrel. simpl in Hrel. fold i released in Hrel.
  split; [done|]. split; [done|]. split; [done|].
  rewrite Hrel. unfold pending in *. simpl.
  rewrite !readCell_insert, length_app. simpl.
  repeat split; (lia || done).
Qed.

(** ** The hook *)

Lemma commandProps_lookup (i : nat) (props0 : Props) (w : World) (k : string) :
  k ≠ "onKeyUp" → k ≠ "onKeyDown" → k ≠ "ref" →
  commandProps i props0 w !! k
  = match restProps props0 !! k with
    | Some v => Some v
    | None =>
        match (useMetadataProps (restProps props0) symbol).2 !! k with
        | Some v => Some v
        | None =>
            (<["type" := typeAttr i w]>
               ({["data-active" := dataActive i w]} : Props)) !! k
        end
    end.
Proof.
  intros H1 H2 H3. unfold commandProps.
  rewrite !lookup_insert_ne by done. by rewrite !spread_lookup.
Qed.

(** X11. Every prop of the caller other than [clickOnEnter],
    [clickOnSpace], [ref], [onKeyDown] and [onKeyUp] is in the object the
    hook builds with the caller's value. The two options are consumed: the
    caller's values for them are not forwarded. [ref] is the merged ref.
    The object has no key beyond the caller's, the metadata props' and the
    hook's five. *)
Theorem caller_props_pass_through (i : nat) (props0 : Props) (w : World) :
  let built := commandProps i props0 w in
  let metadataProps := (useMetadataProps (restProps props0) symbol).2 in
  (∀ k v, k ≠ "clickOnEnter" → k ≠ "clickOnSpace" → k ≠ "ref" →
          k ≠ "onKeyDown" → k ≠ "onKeyUp" →
          props0 !! k = Some v → built !! k = Some v)
  ∧ built !! "clickOnEnter" = metadataProps !! "clickOnEnter"
  ∧ built !! "clickOnSpace" = metadataProps !! "clickOnSpace"
  ∧ built !! "ref" = Some (useMergeRefs i (props0 !! "ref"))
  ∧ (∀ k, is_Some (built !! k) →
          k ∈ ["data-active"; "type"; "ref"; "onKeyDown"; "onKeyUp"]
          ∨ is_Some (props0 !! k) ∨ is_Some (metadataProps !! k)).
Proof.
  intros built metadataProps.
  split; [|split; [|split; [|split]]].
  - intros k v H1 H2 H3 H4 H5 Hk. unfold built.
    rewrite commandProps_lookup by done.
    by rewrite restProps_lookup, Hk by done.
  - unfold built. rewrite commandProps_lookup by done.
    unfold restProps at 1.
    rewrite lookup_delete_ne, lookup_delete_eq by done.
    fold metadataProps. by destruct (metadataProps !! "clickOnEnter").
  - unfold built. rewrite commandProps_lookup by done.
    unfold restProps at 1. rewrite lookup_delete_eq.
    fold metadataProps. by destruct (metadataProps !! "clickOnSpace").
  - unfold built, commandProps.
    rewrite lookup_insert_ne, lookup_insert_ne, lookup_insert_eq by done.
    by rewrite restProps_lookup.
  - intros k Hk.
    destruct (decide (k = "onKeyUp")) as [->|H1]; [left; set_solver|].
    destruct (decide (k = "onKeyDown")) as [->|H2]; [left; set_solver|].
    destruct (decide (k = "ref")) as [->|H3]; [left; set_solver|].
    unfold built in Hk. rewrite commandProps_lookup in Hk by done.
    fold metadataProps in Hk.
    destruct (restProps props0 !! k) as [v|] eqn:Hrest.
    { right; left. unfold restProps in Hrest.
      apply lookup_delete_Some in Hrest as [_ Hrest].
      apply lookup_delete_Some in Hrest as [_ Hrest]. by rewrite Hrest. }
    destruct (metadataProps !! k) as [v|]; [by right; right|].
    destruct (decide (k = "type")) as [->|H4]; [left; set_solver|].
    rewrite lookup_insert_ne in Hk by done.
    destruct (decide (k = "data-active")) as [->|H5]; [left; set_solver|].
    rewrite lookup_singleton_ne in Hk by done. by destruct Hk.
Qed.

(** X12. What the hook returns depends on the state only through the
    active flag and the native-button flag of its own instance: the
    marker, the queues, the event's flag and the cells of other instances
    never show in the props. *)
Theorem render_reads_two_cells (i : nat) (props0 : Props) (w w' : World) :
  readCell (active w) i = readCell (active w') i →
  readCell (isNativeButton w) i = readCell (isNativeButton w') i →
  commandProps i props0 w = commandProps i props0 w'
  ∧ useCommand i props0 w = useCommand i props0 w'.
Proof.
  intros Ha Hn.
  assert (commandProps i props0 w = commandProps i props0 w') as E.
  { unfold commandProps, dataActive, typeAttr. by rewrite Ha, Hn. }
  split; [done|]. unfold useCommand. by rewrite E.
Qed.

(** X13. When the props one hook call returned are given to a second
    call, and the focus collaborator handed the first call's [onKeyDown]
    and [onKeyUp] through, the second call's handlers receive the first
    call's handlers as user handlers; if the second call finds the marker
    it is a duplicate registration on the first, and its handlers do
    exactly what the first call's handlers do. *)
Theorem nested_hook_is_registered (i j : nat) (props0 : Props) (w : World) :
  let returned := useCommand i props0 w in
  let built := commandProps i props0 w in
  let first := instanceOf i props0 in
  let second := instanceOf j returned in
  returned !! "onKeyDown" = built !! "onKeyDown" →
  returned !! "onKeyUp" = built !! "onKeyUp" →
  (useMetadataProps (restProps returned) symbol).1 = true →
  onKeyDownProp second = Some (onKeyDown first)
  ∧ onKeyUpProp second = Some (onKeyUp first)
  ∧ Registered first second
  ∧ (∀ event w0,
       onKeyDown second event w0 = onKeyDown first event w0
       ∧ onKeyUp second event w0 = onKeyUp first event w0).
Proof.
  intros returned built first second Hdown Hup Hdup.
  assert (onKeyDownProp second = Some (onKeyDown first)) as Hd.
  { simpl. rewrite restProps_lookup by done. fold returned. rewrite Hdown.
    unfold built, commandProps.
    by rewrite lookup_insert_ne, lookup_insert_eq. }
  assert (onKeyUpProp second = Some (onKeyUp first)) as Hu.
  { simpl. rewrite restProps_lookup by done. fold returned. rewrite Hup.
    unfold built, commandProps. by rewrite lookup_insert_eq. }
  assert (Registered first second) as Hreg.
  { by apply (registered_duplicate first first second); [constructor|..]. }
  split; [done|]. split; [done|]. split; [done|].
  by apply registered_handlers.
Qed.

(** X14. The mount effect does nothing without a mounted element and is
    idempotent; it writes only the native-button flag of its instance, so
    that the hook's own [type] is ["button"] exactly when [isButton] holds
    of the mounted element; and no keydown or keyup changes the hook's own
    [type] of any instance afterwards. *)
Theorem mountEffect_fixes_type (i : nat) (current : option Element)
    (w : World) :
  mountEffect i None w = w
  ∧ mountEffect i current (mountEffect i current w) = mountEffect i current w
  ∧ (∀ element,
       typeAttr i (mountEffect i (Some element) w)
       = if isButton element then PVal (VStr "button") else PVal VUndefined)
  ∧ (∀ j, j ≠ i → typeAttr j (mountEffect i current w) = typeAttr j w)
  ∧ (∀ j, dataActive j (mountEffect i current w) = dataActive j w)
  ∧ activeRef (mountEffect i current w) = activeRef w
  ∧ pending (mountEffect i current w) = pending w
  ∧ (∀ self event j,
       typeAttr j (onKeyDown self event w)
       = typeAttr j (callOptional (onKeyDownProp self) event w)
       ∧ typeAttr j (onKeyUp self event w)
         = typeAttr j (callOptional (onKeyUpProp self) event w)).
Proof.
  split; [done|]. split; [|split; [|split; [|split; [|split; [|split]]]]].
  - destruct current as [element|]; [|done].
    unfold mountEffect, setIsNativeButton. simpl.
    by rewrite insert_insert_eq.
  - intros element. unfold typeAttr. simpl. by rewrite readCell_insert.
  - intros j Hj. destruct current as [element|]; [|done].
    unfold typeAttr, readCell. simpl. by rewrite lookup_insert_ne.
  - intros j. by destruct current.
  - by destruct current.
  - by destruct current.
  - intros self event j. unfold typeAttr.
    assert (isNativeButton (onKeyDown self event w)
            = isNativeButton (callOptional (onKeyDownProp self) event w))
      as -> by (rewrite onKeyDown_outcome; simpl; by split_if).
    assert (isNativeButton (onKeyUp self event w)
            = isNativeButton (callOptional (onKeyUpProp self) event w))
      as -> by (rewrite onKeyUp_outcome; simpl; by split_if).
    done.
Qed.

(** X15. When the caller's props are disabled, or the hook finds the
    duplicate marker, the handlers the hook returns do nothing of their
    own: calling one is calling the caller's handler of the same name, or
    nothing when there is none. *)
Theorem disabled_hook_is_inert (i : nat) (props0 : Props) (w : World) :
  let built := commandProps i props0 w in
  disabledFromProps (restProps props0) = true
  ∨ (useMetadataProps (restProps props0) symbol).1 = true →
  ∃ down up : Handler,
    built !! "onKeyDown" = Some (PFun down)
    ∧ built !! "onKeyUp" = Some (PFun up)
    ∧ ∀ event w0,
        down event w0
        = callOptional (handlerOf (props0 !! "onKeyDown")) event w0
        ∧ up event w0
          = callOptional (handlerOf (props0 !! "onKeyUp")) event w0.
Proof.
  intros built Hoff.
  exists (useEvent (onKeyDown (instanceOf i props0))),
         (useEvent (onKeyUp (instanceOf i props0))).
  split; [unfold built, commandProps;
          by rewrite lookup_insert_ne, lookup_insert_eq|].
  split; [unfold built, commandProps; by rewrite lookup_insert_eq|].
  intros event w0. unfold useEvent.
  rewrite onKeyDown_outcome, onKeyUp_outcome. simpl.
  rewrite !restProps_lookup by done.
  destruct Hoff as [-> | ->]; rewrite ?orb_true_r; simpl;
    split; by split_if.
Qed.

(** X16. Leaving an option out, or passing [undefined] for it, is the
    same as passing [true]: the hook creates the same handler closure and
    builds the same props. *)
Theorem option_defaults_to_true (i : nat) (props0 : Props) (w : World)
    (option : string) :
  option = "clickOnEnter" ∨ option = "clickOnSpace" →
  props0 !! option = None ∨ props0 !! option = Some (PVal VUndefined) →
  let explicit := <[option := PVal (VBool true)]> props0 in
  instanceOf i explicit = instanceOf i props0
  ∧ commandProps i explicit w = commandProps i props0 w
  ∧ useCommand i explicit w = useCommand i props0 w.
Proof.
  intros Hopt Hmissing explicit.
  assert (restProps explicit = restProps props0) as Hrest.
  { unfold explicit, restProps.
    destruct Hopt as [-> | ->].
    - by rewrite delete_insert_eq.
    - rewrite (delete_insert_ne _ "clickOnEnter" "clickOnSpace") by done.
      by rewrite delete_insert_eq. }
  assert (flagOrTrue (explicit !! "clickOnEnter")
          = flagOrTrue (props0 !! "clickOnEnter")
          ∧ flagOrTrue (explicit !! "clickOnSpace")
            = flagOrTrue (props0 !! "clickOnSpace")) as [HE HS].
  { unfold explicit.
    destruct Hopt as [-> | ->].
    - rewrite lookup_insert_eq, lookup_insert_ne by done.
      by destruct Hmissing as [-> | ->].
    - rewrite lookup_insert_eq, lookup_insert_ne by done.
      by destruct Hmissing as [-> | ->]. }
  assert (instanceOf i explicit = instanceOf i props0) as Hinst.
  { unfold instanceOf. by rewrite Hrest, HE, HS. }
  assert (commandProps i explicit w = commandProps i props0 w) as Hbuilt.
  { unfold commandProps. by rewrite Hrest, Hinst. }
  split; [done|]. split; [done|]. unfold useCommand. by rewrite Hbuilt.
Qed.

End Behaviour.

(** * Concrete runs *)

(** On Firefox the Enter click waits for the next keyup on the element
    and the microtask queue stays empty. *)
Example enter_on_firefox :
  let w := onKeyDown (env:=firefox) plain (keyOn true "Enter" div) idle in
  map fst (beforeEvent w) = [(div, "keyup")] ∧ microtasks w = [].
Proof. split; reflexivity. Qed.

(** A trusted Enter on a native button is left to the browser; an
    untrusted one is not classified as native and gets a synthesized
    click. *)
Example enter_on_button :
  pending (onKeyDown (env:=chrome) plain (keyOn true "Enter" button) idle) = 0
  ∧ pending (onKeyDown (env:=chrome) plain (keyOn false "Enter" button) idle)
    = 1.
Proof. split; reflexivity. Qed.

(** Shift+Enter: the queued init has [shiftKey] set and no [view]. *)
Example shift_enter_init :
  match microtasks (onKeyDown (env:=chrome) plain (shiftEnterOn div) idle) with
  | [FireClick element eventInit] =>
      element = div
      ∧ eventInit !! "shiftKey" = Some (VBool true)
      ∧ eventInit !! "view" = None
  | _ => False
  end.
Proof. repeat split; reflexivity. Qed.

(** A keyup with the meta key held leaves the marker and the flag set. *)
Example meta_release :
  let w1 := onKeyDown (env:=chrome) plain (keyOn true " " div) idle in
  let w2 := onKeyUp (env:=chrome) plain (metaSpaceOn div) (nextEvent false w1) in
  readCell (activeRef w2) 0 = true
  ∧ readCell (active w2) 0 = true
  ∧ pending w2 = 0.
Proof. repeat split; reflexivity. Qed.

(** A user handler that prevents the default stops the keydown handler at
    its first check, also on a disabled instance. *)
Example user_prevented_keydown :
  let self := mkInstance 0 true true false true (Some preventingHandler) None in
  onKeyDownAt (env:=chrome) self (keyOn true "Enter" div) idle
  = (AtDefaultPrevented, preventDefault idle).
Proof. reflexivity. Qed.

Lemma onKeyDown_enter_schedules_click_witness :
  let event := keyOn true "Enter" div in
  keydownPasses (env:=chrome) plain event idle
  ∧ isNativeClick (env:=chrome) event = false
  ∧ defaultPrevented (onKeyDown (env:=chrome) plain event idle) = true
  ∧ clicks (onKeyDown (env:=chrome) plain event idle) = []
  ∧ length (microtasks (onKeyDown (env:=chrome) plain event idle)) = 1
  ∧ length (clicks (flushMicrotasks
                      (onKeyDown (env:=chrome) plain event idle))) = 1.
Proof.
  intros event.
  assert (keydownPasses (env:=chrome) plain event idle) as Hpass
    by (unfold keydownPasses; simpl; repeat split; reflexivity).
  destruct (onKeyDown_enter_schedules_click (env:=chrome) plain event idle
              Hpass eq_refl eq_refl eq_refl)
    as (Hdp & Hclicks & _ & _ & _ & Hother).
  destruct (Hother eq_refl) as (_ & Hmicro & _ & Hflush).
  split; [exact Hpass|]. split; [reflexivity|].
  split; [exact Hdp|]. split; [exact Hclicks|].
  split; [rewrite Hmicro; reflexivity|].
  rewrite Hflush. reflexivity.
Defined.

Lemma onKeyDown_disabled_key_witness :
  let event := keyOn true "Enter" div in
  keydownPasses (env:=chrome) noEnter event idle
  ∧ (key event = "Enter" ∧ clickOnEnter noEnter = false)
  ∧ onKeyDownAt (env:=chrome) noEnter event idle
    = (AtPreventOnly, preventDefault idle)
  ∧ microtasks (onKeyDown (env:=chrome) noEnter event idle) = [].
Proof.
  intros event.
  assert (keydownPasses (env:=chrome) noEnter event idle) as Hpass
    by (unfold keydownPasses; simpl; repeat split; reflexivity).
  destruct (onKeyDown_disabled_key (env:=chrome) noEnter event idle
              Hpass (or_introl (conj eq_refl eq_refl)))
    as (Hrun & _ & Hmicro & _).
  split; [exact Hpass|]. split; [split; reflexivity|].
  split; [exact Hrun|exact Hmicro].
Defined.

Lemma space_press_and_release_witness :
  let down := keyOn true " " div in
  let up := keyOn true " " div in
  let d2 := onKeyDown (env:=chrome) plain down idle in
  let u2 := onKeyUp (env:=chrome) plain up (nextEvent false d2) in
  keydownPasses (env:=chrome) plain down idle
  ∧ keyupPasses plain up (nextEvent false d2)
  ∧ readCell (activeRef d2) 0 = true
  ∧ readCell (active d2) 0 = true
  ∧ microtasks d2 = []
  ∧ readCell (activeRef u2) 0 = false
  ∧ readCell (active u2) 0 = false
  ∧ length (microtasks u2) = 1.
Proof.
  intros down up d2 u2.
  assert (keydownPasses (env:=chrome) plain down idle) as Hpass
    by (unfold keydownPasses; simpl; repeat split; reflexivity).
  assert (keyupPasses plain up (nextEvent false d2)) as Hupass
    by (unfold keyupPasses; simpl; repeat split; reflexivity).
  destruct (space_press_and_release (env:=chrome) plain down up idle
              (nextEvent false d2) eq_refl eq_refl eq_refl Hpass)
    as (Hdown & Hup & _ & _).
  destruct (Hdown eq_refl) as (_ & Hm & _ & Ha & Hq & _).
  destruct (Hup Hupass eq_refl eq_refl) as (Hm' & _ & Ha' & Hq' & _).
  split; [exact Hpass|]. split; [exact Hupass|].
  split; [exact Hm|]. split; [exact Ha|]. split; [exact Hq|].
  split; [exact Hm'|]. split; [exact Ha'|].
  unfold u2. rewrite Hq'. reflexivity.
Defined.

Lemma one_click_per_key_press_witness :
  let primary := instanceOf (env:=chrome) 0 ∅ in
  let nested :=
    instanceOf (env:=chrome) 1 (useCommand (env:=chrome) 0 ∅ idle) in
  let down := keyOn true "Enter" div in
  let up := keyOn true "Enter" div in
  let d2 := onKeyDown (env:=chrome) nested down idle in
  let u2 := onKeyUp (env:=chrome) nested up (nextEvent false d2) in
  Registered (env:=chrome) primary nested
  ∧ key down = key up
  ∧ isDuplicate nested = true
  ∧ pending idle = 0
  ∧ pending d2 = 1
  ∧ pending u2 = 1.
Proof.
  intros primary nested down up d2 u2.
  assert (Registered (env:=chrome) primary nested) as Hreg.
  { apply (registered_duplicate (env:=chrome) primary primary nested);
      [constructor | reflexivity | reflexivity | reflexivity]. }
  assert (keydownPasses (env:=chrome) primary down idle) as Hpass
    by (unfold keydownPasses; simpl; repeat split; reflexivity).
  destruct (one_click_per_key_press (env:=chrome) primary nested down up
              idle (nextEvent false d2) Hreg eq_refl)
    as (_ & Hu & _ & _ & _ & _ & _ & Henter).
  destruct (Henter eq_refl Hpass eq_refl eq_refl) as [Hd2 Hu2].
  split; [exact Hreg|]. split; [reflexivity|]. split; [reflexivity|].
  split; [reflexivity|]. split; [exact Hd2|].
  unfold u2. rewrite Hu2. reflexivity.
Defined.

Lemma vetoed_release_keeps_active_witness :
  let down := keyOn true " " div in
  let up1 := shiftSpaceOn div in
  let up2 := keyOn true " " div in
  let w1 := onKeyDown (env:=chrome) guarded down idle in
  let w2 := onKeyUp (env:=chrome) guarded up1 (nextEvent false w1) in
  let w3 := onKeyUp (env:=chrome) guarded up2 (nextEvent false w2) in
  keepsCells 0 (onKeyUpProp guarded)
  ∧ keydownPasses (env:=chrome) guarded down idle
  ∧ defaultPrevented
      (callOptional (onKeyUpProp guarded) up1 (nextEvent false w1)) = true
  ∧ keyupPasses guarded up2
      (callOptional (onKeyUpProp guarded) up2 (nextEvent false w2))
  ∧ readCell (activeRef w2) 0 = true
  ∧ readCell (active w2) 0 = true
  ∧ microtasks w2 = []
  ∧ readCell (activeRef w3) 0 = false
  ∧ length (microtasks w3) = 1.
Proof.
  intros down up1 up2 w1 w2 w3.
  assert (keepsCells 0 (onKeyUpProp guarded)) as Hkeep.
  { intros event w. simpl. unfold preventOnShift.
    destruct (shiftKey event); split; reflexivity. }
  assert (keydownPasses (env:=chrome) guarded down idle) as Hpass
    by (unfold keydownPasses; simpl; repeat split; reflexivity).
  assert (keyupPasses guarded up2
            (callOptional (onKeyUpProp guarded) up2 (nextEvent false w2)))
    as Hpass2
    by (unfold keyupPasses; simpl; repeat split; reflexivity).
  destruct (vetoed_release_keeps_active (env:=chrome) guarded down up1 up2
              idle false false Hkeep eq_refl eq_refl Hpass eq_refl
              (or_introl eq_refl) eq_refl Hpass2 eq_refl)
    as (_ & (_ & Hm2 & Ha2 & _) & _ & _ & (Hm3 & _ & Hq3)).
  split; [exact Hkeep|]. split; [exact Hpass|]. split; [reflexivity|].
  split; [exact Hpass2|]. split; [exact Hm2|]. split; [exact Ha2|].
  split; [reflexivity|]. split; [exact Hm3|].
  unfold w3, w2, w1. rewrite Hq3. reflexivity.
Defined.

(** * Where the code differs *)

(** C5, as stated, fails: the keyup handler has no text-field and no
    content-editable check. A Space keydown on a DIV sets the marker; the
    DIV is made content-editable before the key is released; the keyup
    handler does not return without action but prevents the default and
    queues a click. *)
Lemma onKeyUp_content_editable_counterexample :
  let down := keyOn true " " div in
  let up := keyOn true " " editableDiv in
  let w := nextEvent false (onKeyDown (env:=chrome) plain down idle) in
  let w1 := callOptional (onKeyUpProp plain) up w in
  isContentEditable (currentTarget up) = true
  ∧ defaultPrevented w1 = false
  ∧ microtasks w1 = []
  ∧ (onKeyUpAt (env:=chrome) plain up w).1 = AtEnd
  ∧ defaultPrevented (onKeyUp (env:=chrome) plain up w) = true
  ∧ length (microtasks (onKeyUp (env:=chrome) plain up w)) = 1
  ∧ ¬ (isContentEditable (currentTarget up) = true →
       onKeyUp (env:=chrome) plain up w = w1).
Proof.
  intros down up w w1.
  repeat split; try reflexivity.
  intros Hclaim. specialize (Hclaim eq_refl).
  apply (f_equal defaultPrevented) in Hclaim. discriminate Hclaim.
Qed.

(** C9, as stated, fails: the caller's props are spread after the hook's
    own [data-active] and [type]. On a mounted native button a caller's
    [type="submit"] is what the hook returns, not ["button"]; and a
    caller's [data-active={false}] is returned as [false] although the
    active flag is not set. *)
Lemma useCommand_caller_props_counterexample :
  let w := mountEffect (env:=chrome) 0 (Some button) idle in
  let submit : Props := {["type" := PVal (VStr "submit")]} in
  let inactive : Props := {["data-active" := PVal (VBool false)]} in
  readCell (isNativeButton w) 0 = true
  ∧ getProp (useCommand (env:=chrome) 0 submit w) "type"
    = PVal (VStr "submit")
  ∧ getProp (useCommand (env:=chrome) 0 submit w) "type"
    ≠ PVal (VStr "button")
  ∧ readCell (active w) 0 = false
  ∧ getProp (useCommand (env:=chrome) 0 inactive w) "data-active"
    = PVal (VBool false)
  ∧ getProp (useCommand (env:=chrome) 0 inactive w) "data-active"
    ≠ PVal VUndefined.
Proof.
  intros w submit inactive.
  assert (getProp (useCommand (env:=chrome) 0 submit w) "type"
          = PVal (VStr "submit")) as Htype by reflexivity.
  assert (getProp (useCommand (env:=chrome) 0 inactive w) "data-active"
          = PVal (VBool false)) as Hactive by reflexivity.
  split; [reflexivity|]. split; [exact Htype|].
  split; [rewrite Htype; discriminate|].
  split; [reflexivity|]. split; [exact Hactive|].
  rewrite Hactive. discriminate.
Qed.

(** * Concrete runs of the further behaviour *)

Lemma native_click_never_synthesized_witness :
  let event := keyOn true " " button in
  let w' := setActiveRef 0 true idle in
  isNativeClick (env:=chrome) event = true
  ∧ microtasks (onKeyDown (env:=chrome) plain event idle) = []
  ∧ active (onKeyDown (env:=chrome) plain event idle) = ∅
  ∧ defaultPrevented (onKeyDown (env:=chrome) plain event idle) = false
  ∧ microtasks (onKeyUp (env:=chrome) plain event w') = []
  ∧ defaultPrevented (onKeyUp (env:=chrome) plain event w') = false.
Proof.
  intros event w'.
  destruct (native_click_never_synthesized (env:=chrome) plain event idle w'
              eq_refl)
    as ((Hm & _ & _ & Ha) & (Hm' & _ & _ & _ & Hp') & Hp).
  split; [reflexivity|]. split; [exact Hm|]. split; [exact Ha|].
  split; [exact (Hp (or_intror (conj eq_refl eq_refl)))|].
  split; [exact Hm'|exact Hp'].
Defined.

Lemma native_release_only_clears_marker_witness :
  let down := keyOn false " " button in
  let up := keyOn true " " button in
  let w := nextEvent false (onKeyDown (env:=chrome) plain down idle) in
  let u2 := onKeyUp (env:=chrome) plain up w in
  isNativeClick (env:=chrome) down = false
  ∧ isNativeClick (env:=chrome) up = true
  ∧ keyupPasses plain up w
  ∧ readCell (active w) 0 = true
  ∧ readCell (activeRef u2) 0 = false
  ∧ readCell (active u2) 0 = true
  ∧ defaultPrevented u2 = false
  ∧ pending u2 = 0.
Proof.
  intros down up w u2.
  assert (keyupPasses plain up w) as Hpass
    by (unfold keyupPasses; simpl; repeat split; reflexivity).
  destruct (native_release_only_clears_marker (env:=chrome) plain up w
              Hpass eq_refl eq_refl eq_refl eq_refl)
    as (_ & Hm & Ha & Hp & Hq).
  split; [reflexivity|]. split; [reflexivity|]. split; [exact Hpass|].
  split; [reflexivity|]. split; [exact Hm|]. split; [exact Ha|].
  split; [exact Hp|exact Hq].
Defined.

Lemma other_keys_pass_through_witness :
  let event := keyOn true "a" div in
  let w := setActiveRef 0 true idle in
  key event ≠ " "
  ∧ key event ≠ "Enter"
  ∧ onKeyUp (env:=chrome) plain event w = w
  ∧ onKeyDown (env:=chrome) plain event w = w.
Proof.
  intros event w.
  assert (key event ≠ " ") as HS by discriminate.
  assert (key event ≠ "Enter") as HE by discriminate.
  destruct (other_keys_pass_through (env:=chrome) plain event w HS)
    as [Hup Hdown].
  split; [exact HS|]. split; [exact HE|].
  split; [exact Hup|exact (Hdown HE)].
Defined.

Lemma keyup_without_marker_witness :
  let event := keyOn true " " div in
  readCell (activeRef idle) (fiber plain) = false
  ∧ onKeyUp (env:=chrome) plain event idle = idle.
Proof.
  intros event. split; [reflexivity|].
  exact (keyup_without_marker (env:=chrome) plain event idle
           (or_introl eq_refl)).
Defined.

Lemma stacked_registrations_queue_once_witness :
  let event := keyOn true "Enter" div in
  Stacked (env:=chrome) plain unmarked
  ∧ isDuplicate unmarked = false
  ∧ pending (onKeyDown (env:=chrome) plain event idle) = 1
  ∧ pending (onKeyDown (env:=chrome) unmarked event idle) = 1
  ∧ pending (onKeyDown (env:=chrome) unmarked event idle) ≤ pending idle + 1.
Proof.
  intros event.
  assert (Stacked (env:=chrome) plain unmarked) as Hst.
  { apply (stacked_on (env:=chrome) plain plain unmarked);
      [constructor | reflexivity | reflexivity]. }
  destruct (stacked_registrations_queue_once (env:=chrome) plain unmarked
              event idle Hst) as (_ & Hle & _).
  split; [exact Hst|]. split; [reflexivity|]. split; [reflexivity|].
  split; [reflexivity|exact Hle].
Defined.

Lemma held_enter_clicks_each_repeat_witness :
  let event := keyOn true "Enter" div in
  keydownPasses (env:=chrome) plain event (nextEvent false idle)
  ∧ pending (repeatKeyDown (env:=chrome) plain event 3 idle) = pending idle + 3
  ∧ clicks (repeatKeyDown (env:=chrome) plain event 3 idle) = [].
Proof.
  intros event.
  assert (keydownPasses (env:=chrome) plain event (nextEvent false idle))
    as Hpass
    by (unfold keydownPasses; simpl; repeat split; reflexivity).
  destruct (held_enter_clicks_each_repeat (env:=chrome) plain event 3 idle
              eq_refl Hpass eq_refl eq_refl eq_refl) as [Hp Hc].
  split; [exact Hpass|]. split; [exact Hp|exact Hc].
Defined.

Lemma held_space_clicks_once_witness :
  let down := keyOn true " " div in
  let up := keyOn true " " div in
  let held := repeatKeyDown (env:=chrome) plain down 3 idle in
  let released := onKeyUp (env:=chrome) plain up (nextEvent false held) in
  keydownPasses (env:=chrome) plain down (nextEvent false idle)
  ∧ pending held = pending idle
  ∧ readCell (active held) 0 = true
  ∧ pending released = pending idle + 1
  ∧ readCell (activeRef released) 0 = false
  ∧ readCell (active released) 0 = false.
Proof.
  intros down up held released.
  assert (keydownPasses (env:=chrome) plain down (nextEvent false idle))
    as Hpass
    by (unfold keydownPasses; simpl; repeat split; reflexivity).
  destruct (held_space_clicks_once (env:=chrome) plain down up 2 idle
              eq_refl eq_refl Hpass eq_refl eq_refl eq_refl eq_refl
              eq_refl eq_refl)
    as (Hp & _ & Ha & Hq & Hm' & Ha' & _).
  split; [exact Hpass|]. split; [exact Hp|]. split; [exact Ha|].
  split; [exact Hq|]. split; [exact Hm'|exact Ha'].
Defined.

Lemma render_reads_two_cells_witness :
  let w' :=
    setActiveRef 0 true
      (setActive 1 true
         (queueMicrotask (FireClick div ∅) (preventDefault idle))) in
  readCell (active idle) 0 = readCell (active w') 0
  ∧ readCell (isNativeButton idle) 0 = readCell (isNativeButton w') 0
  ∧ useCommand (env:=chrome) 0 ∅ idle = useCommand (env:=chrome) 0 ∅ w'.
Proof.
  intros w'.
  destruct (render_reads_two_cells (env:=chrome) 0 ∅ idle w'
              eq_refl eq_refl) as [_ Hsame].
  split; [reflexivity|]. split; [reflexivity|exact Hsame].
Defined.

Lemma nested_hook_is_registered_witness :
  let returned := useCommand (env:=chrome) 0 ∅ idle in
  let first := instanceOf (env:=chrome) 0 ∅ in
  let second := instanceOf (env:=chrome) 1 returned in
  (useMetadataProps (Collaborators:=chrome) (restProps returned) symbol).1
  = true
  ∧ isDuplicate first = false
  ∧ Registered (env:=chrome) first second
  ∧ onKeyDown (env:=chrome) second (keyOn true "Enter" div) idle
    = onKeyDown (env:=chrome) first (keyOn true "Enter" div) idle.
Proof.
  intros returned first second.
  assert ((useMetadataProps (Collaborators:=chrome) (restProps returned)
             symbol).1 = true) as Hdup by reflexivity.
  destruct (nested_hook_is_registered (env:=chrome) 0 1 ∅ idle
              eq_refl eq_refl Hdup) as (_ & _ & Hreg & Hsame).
  split; [exact Hdup|]. split; [reflexivity|]. split; [exact Hreg|].
  exact (proj1 (Hsame (keyOn true "Enter" div) idle)).
Defined.

Lemma disabled_hook_is_inert_witness :
  let props0 : Props := {["disabled" := PVal (VBool true)]} in
  disabledFromProps (Collaborators:=chrome) (restProps props0) = true
  ∧ ∃ down up : Handler,
      commandProps (env:=chrome) 0 props0 idle !! "onKeyDown"
      = Some (PFun down)
      ∧ commandProps (env:=chrome) 0 props0 idle !! "onKeyUp"
        = Some (PFun up)
      ∧ down (keyOn true "Enter" div) idle = idle
      ∧ up (keyOn true " " div) (setActiveRef 0 true idle)
        = setActiveRef 0 true idle.
Proof.
  intros props0. split; [reflexivity|].
  destruct (disabled_hook_is_inert (env:=chrome) 0 props0 idle
              (or_introl eq_refl)) as (down & up & Hd & Hu & Hrun).
  exists down, up. split; [exact Hd|]. split; [exact Hu|].
  split.
  - exact (proj1 (Hrun (keyOn true "Enter" div) idle)).
  - exact (proj2 (Hrun (keyOn true " " div) (setActiveRef 0 true idle))).
Defined.

Lemma option_defaults_to_true_witness :
  let props0 : Props := {["clickOnSpace" := PVal VUndefined]} in
  props0 !! "clickOnSpace" = Some (PVal VUndefined)
  ∧ instanceOf (env:=chrome) 0 (<["clickOnSpace" := PVal (VBool true)]> props0)
    = instanceOf (env:=chrome) 0 props0
  ∧ clickOnSpace (instanceOf (env:=chrome) 0 props0) = true.
Proof.
  intros props0.
  destruct (option_defaults_to_true (env:=chrome) 0 props0 idle
              "clickOnSpace" (or_intror eq_refl) (or_intror eq_refl))
    as (Hinst & _ & _).
  split; [reflexivity|]. split; [exact Hinst|reflexivity].
Defined.
